(** * file-compressor: the target-size-constrained encoding search

    A shallow embedding of [js/imageProcessor.js] and [js/pdfProcessor.js].

    - JavaScript numbers are IEEE 754 binary64 values, so they are modelled by
      Rocq's primitive [float]s: [0.92 - 0.08] below is the very double the
      browser computes, and [Infinity] and [NaN] are ordinary values.
    - The browser capabilities the code calls (image decoding, [canvas.toBlob],
      PDF.js rendering, pdf-lib serialisation) are section variables: every
      statement is about all decoders and encoders.
    - Promises, callbacks and [setTimeout] only sequence the work of one
      request; the embedding is in direct style, and every capability call and
      every progress notification is logged in a trace.  A rejected promise
      is the result [None]. *)

From Stdlib Require Import ZArith QArith List Bool String Lia Floats Uint63.
Import ListNotations.
Set Warnings "-inexact-float,-abstract-large-number".

(** ** JavaScript numbers *)

Module JS.

Definition number := float.

(** An integer as a number; exact below 2^53. *)
Definition ofZ (z : Z) : number :=
  if (z <? 0)%Z then (- of_uint63 (Uint63.of_Z (- z)))%float else of_uint63 (Uint63.of_Z z).

Definition ofNat (n : nat) : number := ofZ (Z.of_nat n).

(** A decimal literal of the source: the double nearest to it (the division
    of two exactly represented integers is correctly rounded). *)
Definition lit (q : Q) : number := (ofZ (Qnum q) / ofZ (Zpos (Qden q)))%float.

Definition signedMantissa (s : bool) (m : positive) : Z :=
  if s then Zneg m else Zpos m.

(** [Math.floor], computed on the exact value [±m·2^e] of the double. *)
Definition Math_floor (x : number) : number :=
  match Prim2SF x with
  | S754_finite s m e =>
      if (0 <=? e)%Z then x else ofZ (signedMantissa s m / 2 ^ (- e))
  | _ => x
  end.

(** [Math.round]: the nearest integer, ties towards +Infinity. *)
Definition Math_round (x : number) : number :=
  match Prim2SF x with
  | S754_finite s m e =>
      if (0 <=? e)%Z then x
      else
        let n := ((2 * signedMantissa s m + 2 ^ (- e)) / 2 ^ (1 - e))%Z in
        if (n =? 0)%Z && s then neg_zero else ofZ n
  | _ => x
  end.

(** [Math.max] and [Math.min] of two numbers: NaN when either is NaN. *)
Definition Math_max (x y : number) : number :=
  if PrimFloat.is_nan x || PrimFloat.is_nan y then nan
  else if (x <? y)%float then y
  else if (y <? x)%float then x
  else if get_sign x then y else x.

Definition Math_min (x y : number) : number :=
  if PrimFloat.is_nan x || PrimFloat.is_nan y then nan
  else if (x <? y)%float then x
  else if (y <? x)%float then y
  else if get_sign x then x else y.

(** Truthiness of a number, as [||] tests it: 0, -0 and NaN are falsy. *)
Definition truthy (x : number) : bool := negb (PrimFloat.is_nan x || PrimFloat.is_zero x).

(** [x || y] on numbers. *)
Definition or_else (x y : number) : number := if truthy x then x else y.

End JS.

(** [a > b] and [a >= b] of the source are the primitive comparisons with the
    arguments swapped (both are false when either side is NaN). *)
Notation "a >? b" := (PrimFloat.ltb b a) (at level 70, no associativity, only parsing) : float_scope.
Notation "a >=? b" := (PrimFloat.leb b a) (at level 70, no associativity, only parsing) : float_scope.

(** ** The arithmetic the dimension planners use

    The planners and the thumbnail sizing are pure arithmetic.  They are
    written over the operations they use, and read at [float], the binary64
    arithmetic the browser executes. *)

Class Arith (num : Type) : Type := {
  a_lit : Q -> num;
  a_mul : num -> num -> num;
  a_div : num -> num -> num;
  a_sqrt : num -> num;
  a_floor : num -> num;
  a_round : num -> num;
  a_max : num -> num -> num;
  a_min : num -> num -> num;
  a_ltb : num -> num -> bool
}.

Declare Scope arith_scope.
Delimit Scope arith_scope with ar.
Notation "x * y" := (a_mul x y) : arith_scope.
Notation "x / y" := (a_div x y) : arith_scope.
Notation "x <? y" := (a_ltb x y) : arith_scope.
Notation "x >? y" := (a_ltb y x) (at level 70, no associativity, only parsing) : arith_scope.

#[export] Instance float_arith : Arith float := {
  a_lit := JS.lit;
  a_mul := PrimFloat.mul;
  a_div := PrimFloat.div;
  a_sqrt := PrimFloat.sqrt;
  a_floor := JS.Math_floor;
  a_round := JS.Math_round;
  a_max := JS.Math_max;
  a_min := JS.Math_min;
  a_ltb := PrimFloat.ltb
}.

Record Dimensions (num : Type) : Type := mkDims { width : num; height : num }.
Arguments mkDims {num} _ _.
Arguments width {num} _.
Arguments height {num} _.

Section Planners.
Context {num : Type} `{Arith num}.
Local Open Scope arith_scope.

(** [calculateOptimalDimensions] (imageProcessor.js). *)
Definition calculateOptimalDimensions
    (originalWidth originalHeight currentSize targetSize maxWidth maxHeight : num)
    : Dimensions num :=
  let originalPixels := originalWidth * originalHeight in
  let targetPixels :=
    a_floor ((originalPixels * targetSize) / (currentSize * a_lit 1.2)) in
  let aspectRatio := originalWidth / originalHeight in
  let newHeight := a_sqrt (targetPixels / aspectRatio) in
  let newWidth := newHeight * aspectRatio in
  (* Apply maximum dimension constraints *)
  let '(newWidth, newHeight) :=
    if newWidth >? maxWidth then (maxWidth, maxWidth / aspectRatio)
    else (newWidth, newHeight) in
  let '(newWidth, newHeight) :=
    if newHeight >? maxHeight then (maxHeight * aspectRatio, maxHeight)
    else (newWidth, newHeight) in
  (* Ensure minimum dimensions *)
  let minDimension := a_lit 200 in
  let '(newWidth, newHeight) :=
    if (newWidth <? minDimension) || (newHeight <? minDimension) then
      let scale := a_max (minDimension / newWidth) (minDimension / newHeight) in
      (a_min (newWidth * scale) maxWidth, a_min (newHeight * scale) maxHeight)
    else (newWidth, newHeight) in
  mkDims (a_round newWidth) (a_round newHeight).

(** The per-page planner written inline in [extractAndProcessPages]
    (pdfProcessor.js, "Calculate optimal dimensions using formula"). *)
Definition planPageDimensions
    (width height targetSizeBytes estimatedFullSize widthPx heightPx : num)
    : Dimensions num :=
  let originalPixels := width * height in
  let targetPixels :=
    a_floor ((originalPixels * targetSizeBytes) / (estimatedFullSize * a_lit 1.15)) in
  let imgRatio := width / height in
  let optimalWidth := a_sqrt (targetPixels / imgRatio) in
  let optimalHeight := optimalWidth / imgRatio in
  (* Apply max constraints *)
  let '(optimalWidth, optimalHeight) :=
    if optimalWidth >? widthPx then (widthPx, widthPx / imgRatio)
    else (optimalWidth, optimalHeight) in
  let '(optimalWidth, optimalHeight) :=
    if optimalHeight >? heightPx then (heightPx * imgRatio, heightPx)
    else (optimalWidth, optimalHeight) in
  (* Ensure minimum dimensions *)
  let minDim := a_lit 150 in
  let '(optimalWidth, optimalHeight) :=
    if (optimalWidth <? minDim) || (optimalHeight <? minDim) then
      let scale := a_max (minDim / optimalWidth) (minDim / optimalHeight) in
      (optimalWidth * scale, optimalHeight * scale)
    else (optimalWidth, optimalHeight) in
  mkDims (a_round optimalWidth) (a_round optimalHeight).

End Planners.

(** ** Data model *)

Local Open Scope string_scope.
Local Open Scope list_scope.
Local Open Scope float_scope.

(** A [Blob] (and a [File], which is a Blob): a MIME type and bytes;
    [blob.size] is the number of bytes. *)
Record Blob : Type := mkBlob { blob_type : string; blob_bytes : list Byte.byte }.

Definition blob_size (b : Blob) : JS.number := JS.ofNat (List.length (blob_bytes b)).

(** A decoded image, or the raster PDF.js rendered a page into. *)
Record Image : Type := mkImage {
  img_width : JS.number;
  img_height : JS.number;
  img_pixels : list Byte.byte
}.

(** A canvas: either the one PDF.js rendered a page into, or a canvas of a
    given size on which one [drawImage] was done (after an optional
    [fillRect] of the whole canvas with [fillStyle]). *)
Inductive Canvas : Type :=
| PageCanvas (page : Image)
| DrawnCanvas (canvas_width canvas_height : JS.number) (fillStyle : option string)
              (src : Image) (offsetX offsetY drawWidth drawHeight : JS.number).

Record Preset : Type := mkPreset {
  maxSizeKB : JS.number;
  format : string;
  widthPx : JS.number;
  heightPx : JS.number
}.

(** One page handed to pdf-lib: [addPage([w, h])] and one [drawImage]. *)
Record PdfPage : Type := mkPdfPage {
  page_width : JS.number;
  page_height : JS.number;
  page_image : Blob;
  image_x : JS.number;
  image_y : JS.number;
  image_width : JS.number;
  image_height : JS.number
}.

(** What one request does that is visible outside it. *)
Inductive Event : Type :=
| Progress (p : JS.number)
| Decode (file : Blob)
| Encode (canvas : Canvas) (fmt : string) (quality : JS.number)
| LoadPDF (file : Blob)
| RenderPage (file : Blob) (pageNum : nat) (scale : JS.number)
| SavePDF (pages : list PdfPage).

(** Computations that log events. *)
Definition M (A : Type) : Type := (A * list Event)%type.

Definition ret {A : Type} (a : A) : M A := (a, []).

Definition bind {A B : Type} (m : M A) (k : A -> M B) : M B :=
  let (a, t1) := m in
  let (b, t2) := k a in
  (b, t1 ++ t2).

Definition emit (e : Event) : M unit := (tt, [e]).

Notation "x <- m ;; k" := (bind m (fun x => k))
  (at level 61, m at next level, right associativity).
Notation "' pat <- m ;; k" := (bind m (fun x => match x with pat => k end))
  (at level 61, pat pattern, m at next level, right associativity).
Notation "m ;; k" := (bind m (fun _ => k))
  (at level 61, right associativity).

(** Code that may throw: [None] is the exception.  None of the functions
    embedded below catches one ([getPageThumbnails], the only function with a
    [try], is not among them), so an exception ends the function it occurs in
    and rejects the promise the function returned; what was logged before
    stays logged. *)
Definition tryBind {A B : Type} (m : M (option A)) (k : A -> M (option B))
    : M (option B) :=
  r <- m ;;
  match r with
  | Some a => k a
  | None => ret None
  end.

Notation "'await' x <- m ;; k" := (tryBind m (fun x => k))
  (at level 61, x name, m at next level, right associativity).
Notation "'await' ' pat <- m ;; k" := (tryBind m (fun x => match x with pat => k end))
  (at level 61, pat pattern, m at next level, right associativity).

(** A progress callback is known by the values it shows to the caller for
    each value it is called with; the caller's parameter [onProgress] may be
    absent.  [observer] shows every value; the callback [() => {}] that
    [processImage] hands to its retry shows none. *)
Definition Callback : Type := JS.number -> list JS.number.

Definition notify (onProgress : option Callback) (p : JS.number) : M unit :=
  match onProgress with
  | Some cb => (tt, map Progress (cb p))
  | None => ret tt
  end.

Definition observer : Callback := fun p => [p].
Definition silent : Callback := fun _ => [].

(** The progress values a trace delivered, in order. *)
Definition progressOf (t : list Event) : list JS.number :=
  flat_map (fun e => match e with Progress p => [p] | _ => [] end) t.

(** The encodes ([canvas.toBlob] calls) of a trace, in order. *)
Definition encodesOf (t : list Event) : list (Canvas * string * JS.number) :=
  flat_map (fun e => match e with Encode c f q => [(c, f, q)] | _ => [] end) t.

Definition decodesOf (t : list Event) : list Blob :=
  flat_map (fun e => match e with Decode f => [f] | _ => [] end) t.

(** The result of one quality search ([compressImage] resolves with it). *)
Record SearchResult : Type := mkSearchResult {
  r_blob : option Blob;
  r_size : JS.number;
  r_quality : JS.number;
  r_warning : bool
}.

(** The object [processImage] returns. *)
Record Outcome : Type := mkOutcome {
  blob : option Blob;
  originalSize : JS.number;
  newSize : JS.number;
  originalDimensions : Dimensions JS.number;
  newDimensions : Dimensions JS.number;
  warning : bool;
  alreadyOptimal : bool
}.

(** ** imageProcessor.js *)

Module ImageProcessor.
Section Capabilities.

(** The decoder behind [loadImage] and the encoder behind [canvas.toBlob]. *)
Variable decoder : Blob -> Image.
Variable encoder : Canvas -> string -> JS.number -> Blob.

Definition loadImage (file : Blob) : M Image :=
  emit (Decode file) ;; ret (decoder file).

Definition toBlob (canvas : Canvas) (fmt : string) (quality : JS.number) : M Blob :=
  emit (Encode canvas fmt quality) ;; ret (encoder canvas fmt quality).

(** [resizeToExact]: a canvas of exactly [width] x [height], white, with the
    image drawn centred at its own aspect ratio (letterboxing). *)
Definition resizeToExact (img : Image) (width height : JS.number) : Canvas :=
  let imgRatio := img_width img / img_height img in
  let targetRatio := width / height in
  if imgRatio >? targetRatio then
    let drawWidth := width in
    let drawHeight := width / imgRatio in
    DrawnCanvas width height (Some "#ffffff") img 0 ((height - drawHeight) / 2)
                drawWidth drawHeight
  else
    let drawHeight := height in
    let drawWidth := height * imgRatio in
    DrawnCanvas width height (Some "#ffffff") img ((width - drawWidth) / 2) 0
                drawWidth drawHeight.

Definition minQuality : JS.number := 0.3.
Definition maxIterations : nat := 25.
Definition startQuality : JS.number := 0.92.

Section compressImage.
Variables (canvas : Canvas) (fmt : string) (targetSizeKB : JS.number)
          (onProgress : option Callback).

Definition targetSizeBytes : JS.number := targetSizeKB * 1024.
Definition minTargetBytes : JS.number := targetSizeBytes * 0.85.

(** [tryCompress].  The source keeps a counter [iteration] and re-enters
    [tryCompress] after each adjustment; here the recursion is on the
    number of iterations left, [remaining = maxIterations - iteration], so
    that [iteration >= maxIterations] is [remaining = 0]. *)
Fixpoint tryCompress (remaining : nat) (quality : JS.number)
    (bestBlob : option Blob) (bestSize bestQuality : JS.number)
    : M SearchResult :=
  match remaining with
  | O =>
      (* Max iterations reached, return best result *)
      ret (match bestBlob with
           | Some b => mkSearchResult (Some b) bestSize bestQuality
                                      (bestSize >? targetSizeBytes)
           | None => mkSearchResult None 0 0 true
           end)
  | S remaining' =>
      let iteration := (maxIterations - remaining)%nat in
      blob <- toBlob canvas fmt quality ;;
      notify onProgress
        (JS.Math_min 100
           (JS.Math_round ((JS.ofNat iteration / JS.ofNat maxIterations) * 100))) ;;
      let size := blob_size blob in
      (* Check if we're in the perfect target range *)
      if (size <=? targetSizeBytes) && (size >=? minTargetBytes) then
        ret (mkSearchResult (Some blob) size quality false)
      else
        (* Track best result that's under target *)
        let '(bestBlob, bestSize, bestQuality) :=
          if (size <=? targetSizeBytes) && (size <? bestSize)
          then (Some blob, size, quality)
          else (bestBlob, bestSize, bestQuality) in
        (* If way under target at first iteration, image is naturally small *)
        if Nat.eqb iteration 0 && (size <? minTargetBytes * 0.5) then
          ret (mkSearchResult (Some blob) size quality false)
        else if size >? targetSizeBytes then
          (* If over target, reduce quality more aggressively *)
          if quality <=? minQuality then
            (* Can't reduce further, return best we have *)
            ret (mkSearchResult
                   (Some (match bestBlob with Some b => b | None => blob end))
                   (JS.or_else bestSize size)
                   (JS.or_else bestQuality quality)
                   true)
          else
            let reduction := if size >? targetSizeBytes * 2 then 0.15 else 0.08 in
            tryCompress remaining' (JS.Math_max minQuality (quality - reduction))
                        bestBlob bestSize bestQuality
        else if (size <? minTargetBytes) && (quality <? 0.98) then
          (* Under target but below minTarget - try increasing quality *)
          tryCompress remaining' (JS.Math_min 0.98 (quality + 0.05))
                      bestBlob bestSize bestQuality
        else
          (* We're in a good range *)
          ret (mkSearchResult (Some blob) size quality (size >? targetSizeBytes))
  end.

(** [compressImage]: [tryCompress] from [iteration = 0], quality 0.92, no
    best blob and [bestSize = Infinity]. *)
Definition compressImage : M SearchResult :=
  tryCompress maxIterations startQuality None infinity startQuality.

End compressImage.

(** [processImage]. *)
Definition processImage (file : Blob) (preset : Preset)
    (onProgress : option Callback) : M Outcome :=
  notify onProgress 10 ;;
  let originalSize := blob_size file in
  img <- loadImage file ;;
  let originalDimensions := mkDims (img_width img) (img_height img) in
  let targetSizeBytes := maxSizeKB preset * 1024 in
  notify onProgress 20 ;;
  (* Check if already within size limit *)
  if originalSize <=? targetSizeBytes then
    if String.eqb (blob_type file) (format preset) then
      (* Already optimal *)
      ret (mkOutcome (Some file) originalSize originalSize
                     originalDimensions originalDimensions false true)
    else
      (* Just convert format without resizing *)
      let canvas := resizeToExact img (img_width img) (img_height img) in
      result <- compressImage canvas (format preset) (maxSizeKB preset) onProgress ;;
      ret (mkOutcome (r_blob result) originalSize (r_size result)
                     originalDimensions (mkDims (img_width img) (img_height img))
                     (r_warning result) (negb (r_warning result)))
  else
    (* Step 1: Create a test thumbnail to estimate compression ratio *)
    let testScale := 0.2 in
    let testWidth := JS.Math_max 100 (JS.Math_floor (img_width img * testScale)) in
    let testHeight := JS.Math_max 100 (JS.Math_floor (img_height img * testScale)) in
    let testCanvas := DrawnCanvas testWidth testHeight None img 0 0 testWidth testHeight in
    (* Compress test image at 80% quality to estimate *)
    testBlob <- toBlob testCanvas (format preset) 0.8 ;;
    notify onProgress 35 ;;
    (* Step 2: Calculate optimal dimensions using the formula *)
    let estimatedFullSize := blob_size testBlob / (testScale * testScale) in
    let optimalDims :=
      calculateOptimalDimensions (img_width img) (img_height img)
        estimatedFullSize targetSizeBytes (widthPx preset) (heightPx preset) in
    notify onProgress 45 ;;
    (* Step 3: Resize to calculated optimal dimensions *)
    let canvas := resizeToExact img (width optimalDims) (height optimalDims) in
    notify onProgress 55 ;;
    (* Step 4: Compress with quality adjustment *)
    result <- compressImage canvas (format preset) (maxSizeKB preset) onProgress ;;
    notify onProgress 100 ;;
    let final :=
      mkOutcome (r_blob result) originalSize (r_size result) originalDimensions
                (mkDims (width optimalDims) (height optimalDims))
                (r_size result >? targetSizeBytes) false in
    (* Step 5: If still over target, further reduce dimensions and retry *)
    if (r_size result >? targetSizeBytes) && (r_size result >? originalSize * 0.5) then
      let sizeRatio := targetSizeBytes / r_size result in
      let dimRatio := PrimFloat.sqrt sizeRatio in
      let retryWidth :=
        JS.Math_max 100 (JS.Math_floor (width optimalDims * dimRatio * 0.9)) in
      let retryHeight :=
        JS.Math_max 100 (JS.Math_floor (height optimalDims * dimRatio * 0.9)) in
      let retryCanvas := resizeToExact img retryWidth retryHeight in
      retryResult <- compressImage retryCanvas (format preset) (maxSizeKB preset)
                                   (Some silent) ;;
      if r_size retryResult <? r_size result then
        ret (mkOutcome (r_blob retryResult) originalSize (r_size retryResult)
                       originalDimensions (mkDims retryWidth retryHeight)
                       (r_size retryResult >? targetSizeBytes) false)
      else ret final
    else ret final.

End Capabilities.
End ImageProcessor.

(** ** pdfProcessor.js *)

(** The objects [compressFullPDF] and [extractAndProcessPages] return: the
    fields of an [Outcome] and the page bookkeeping.  ([compressFullPDF] also
    stores [newSize] a second time under the name [size].) *)
Record PdfOutcome : Type := mkPdfOutcome {
  outcome :> Outcome;
  pageCount : nat;
  pageNum : nat
}.

(** [pageSpec]: ['all'], or a page number ([OnePage n] when [parseInt] of it
    is [n]). *)
Inductive PageSpec : Type :=
| AllPages
| OnePage (n : nat).

Module PDFProcessor.
Section Capabilities.

(** PDF.js: the page count of a document and the raster of one of its pages
    at a scale (its width and height are the viewport's, not necessarily
    integers).  The canvas encoder.  pdf-lib: the pixel size it reads from an
    embedded JPEG, and the serialiser behind [save]. *)
Variable numPages : Blob -> nat.
Variable renderer : Blob -> nat -> JS.number -> Image.
Variable encoder : Canvas -> string -> JS.number -> Blob.
Variable jpgDimensions : Blob -> Dimensions JS.number.
Variable serializer : list PdfPage -> Blob.

Definition toBlob (canvas : Canvas) (fmt : string) (quality : JS.number) : M Blob :=
  emit (Encode canvas fmt quality) ;; ret (encoder canvas fmt quality).

Definition save (pages : list PdfPage) : M Blob :=
  emit (SavePDF pages) ;; ret (serializer pages).

Definition getPageCount (file : Blob) : M nat :=
  emit (LoadPDF file) ;; ret (numPages file).

(** [pdf.getPage(pageNum)] of PDF.js rejects ("Invalid page request") unless
    [1 <= pageNum <= pdf.numPages]. *)
Definition validPage (file : Blob) (pageNum : nat) : bool :=
  (1 <=? pageNum)%nat && (pageNum <=? numPages file)%nat.

(** [renderPageToCanvas]: the raster PDF.js rendered (the returned canvas
    is [PageCanvas] of it) and the floored viewport size; it throws when
    [getPage] rejects. *)
Definition renderPageToCanvas (file : Blob) (pageNum : nat) (scale : JS.number)
    : M (option (Image * JS.number * JS.number)) :=
  emit (LoadPDF file) ;;
  if validPage file pageNum then
    emit (RenderPage file pageNum scale) ;;
    let page := renderer file pageNum scale in
    ret (Some (page, JS.Math_floor (img_width page), JS.Math_floor (img_height page)))
  else ret None.

(** [renderPageToImage]: the page at scale 2.0 as a JPEG of the given
    quality (the data URL is the encoded blob). *)
Definition renderPageToImage (file : Blob) (pageNum : nat) (quality : JS.number)
    : M (option (Blob * JS.number * JS.number)) :=
  await '(page, width, height) <- renderPageToCanvas file pageNum 2.0 ;;
  dataUrl <- toBlob (PageCanvas page) "image/jpeg" quality ;;
  ret (Some (dataUrl, width, height)).

(** A [for] loop that collects one value per iteration; an iteration that
    throws ends the loop and the function. *)
Fixpoint forEach {A B : Type} (f : A -> M (option B)) (l : list A)
    : M (option (list B)) :=
  match l with
  | [] => ret (Some [])
  | a :: l' =>
      await b <- f a ;;
      await bs <- forEach f l' ;;
      ret (Some (b :: bs))
  end.

Definition maxAttempts : nat := 10.

Section compressFullPDF.
Variables (file : Blob) (targetSizeKB : JS.number) (onProgress : option Callback)
          (pageCount : nat).

Definition targetSizeBytes : JS.number := targetSizeKB * 1024.

(* Standard A4 dimensions at 72 DPI *)
Definition targetWidth : JS.number := 595.
Definition targetHeight : JS.number := 842.

(** One rebuild of the whole document at one quality: the body of the
    [for] loop up to [new Blob]. *)
Definition rebuild (quality : JS.number) : M (option Blob) :=
  await pages <- forEach (fun i =>
      await '(dataUrl, _, _) <- renderPageToImage file i quality ;;
      let jpgImage := jpgDimensions dataUrl in
      (* Calculate aspect ratio preserving dimensions *)
      let imgRatio := width jpgImage / height jpgImage in
      let drawWidth := targetWidth in
      let drawHeight := targetWidth / imgRatio in
      let '(drawWidth, drawHeight) :=
        if drawHeight >? targetHeight then (targetHeight * imgRatio, targetHeight)
        else (drawWidth, drawHeight) in
      ret (Some (mkPdfPage drawWidth drawHeight dataUrl 0 0 drawWidth drawHeight)))
    (seq 1 pageCount) ;;
  blob <- save pages ;;
  ret (Some blob).

(** What follows the loop, and what a [break] jumps to. *)
Definition returnBest (bestBlob : option Blob) (bestSize : JS.number)
    : M (option PdfOutcome) :=
  notify onProgress 100 ;;
  ret (Some (mkPdfOutcome
         (mkOutcome bestBlob (blob_size file) bestSize
                    (mkDims targetWidth targetHeight) (mkDims targetWidth targetHeight)
                    (bestSize >? targetSizeBytes) false)
         pageCount 1)).

(** The [for (attempt = 0; attempt < maxAttempts; attempt++)] loop, by
    recursion on [remaining = maxAttempts - attempt]. *)
Fixpoint attempts (remaining : nat) (quality : JS.number)
    (bestBlob : option Blob) (bestSize : JS.number) : M (option PdfOutcome) :=
  match remaining with
  | O => returnBest bestBlob bestSize
  | S remaining' =>
      let attempt := (maxAttempts - remaining)%nat in
      notify onProgress
        (10 + JS.Math_round ((JS.ofNat attempt / JS.ofNat maxAttempts) * 80)) ;;
      await blob <- rebuild quality ;;
      let size := blob_size blob in
      (* Track best result under target *)
      let '(bestBlob, bestSize) :=
        if (size <=? targetSizeBytes) && (size >? bestSize) then (Some blob, size)
        else if (match bestBlob with None => true | Some _ => false end)
                || (size <? bestSize) then (Some blob, size)
        else (bestBlob, bestSize) in
      (* Check if we're in target range (90-100%) *)
      if (size <=? targetSizeBytes) && (size >=? targetSizeBytes * 0.9) then
        notify onProgress 100 ;;
        ret (Some (mkPdfOutcome
               (mkOutcome (Some blob) (blob_size file) size
                          (mkDims targetWidth targetHeight)
                          (mkDims targetWidth targetHeight) false false)
               pageCount 1))
      else if size >? targetSizeBytes then
        (* Over target - reduce quality *)
        if quality <=? 0.2 then returnBest bestBlob bestSize
        else attempts remaining' (JS.Math_max 0.2 (quality - 0.1)) bestBlob bestSize
      else
        (* Under target - try slightly higher quality *)
        if quality <? 0.85 then
          attempts remaining' (JS.Math_min 0.85 (quality + 0.05)) bestBlob bestSize
        else returnBest bestBlob bestSize
  end.

End compressFullPDF.

(** [compressFullPDF]. *)
Definition compressFullPDF (file : Blob) (targetSizeKB : JS.number)
    (onProgress : option Callback) : M (option PdfOutcome) :=
  pageCount <- getPageCount file ;;
  notify onProgress 10 ;;
  attempts file targetSizeKB onProgress pageCount maxAttempts 0.75 None infinity.

Definition minQuality : JS.number := 0.3.
Definition maxIterations : nat := 25.

Section pageSearch.
Variables (resizedCanvas : Canvas) (fmt : string) (targetSizeBytes : JS.number).

Definition minTargetBytes : JS.number := targetSizeBytes * 0.85.

(** The [while (iterations < maxIterations)] loop of one page.  Its body
    runs at least once; the recursion is on the number of iterations that
    may still follow the current one, [maxIterations - 1 - iterations], and
    the loop test is made where the source says [continue].  The result is
    [resultBlob] and [bestBlob] at the exit of the loop. *)
Fixpoint pageSearch (following : nat) (quality : JS.number)
    (bestBlob : option Blob) (bestSize bestQuality : JS.number)
    : M (Blob * option Blob) :=
  let iterations := (maxIterations - 1 - following)%nat in
  resultBlob <- toBlob resizedCanvas fmt quality ;;
  let size := blob_size resultBlob in
  (* Check if we're in the perfect range *)
  if (size <=? targetSizeBytes) && (size >=? minTargetBytes) then
    ret (resultBlob, Some resultBlob)
  else
    (* Track best result under target *)
    let '(bestBlob, bestSize, bestQuality) :=
      if (size <=? targetSizeBytes) && (size <? bestSize)
      then (Some resultBlob, size, quality)
      else (bestBlob, bestSize, bestQuality) in
    (* If way under target at first iteration, image is naturally small *)
    if Nat.eqb iterations 0 && (size <? minTargetBytes * 0.5) then
      ret (resultBlob, bestBlob)
    else if size >? targetSizeBytes then
      (* If over target, reduce quality *)
      if quality <=? minQuality then ret (resultBlob, bestBlob)
      else
        let reduction := if size >? targetSizeBytes * 2 then 0.15 else 0.08 in
        match following with
        | O => ret (resultBlob, bestBlob)
        | S following' =>
            pageSearch following' (JS.Math_max minQuality (quality - reduction))
                       bestBlob bestSize bestQuality
        end
    else if (size <? minTargetBytes) && (quality <? 0.98) then
      (* Under target but under minTarget - try increasing quality *)
      match following with
      | O => ret (resultBlob, bestBlob)
      | S following' =>
          pageSearch following' (JS.Math_min 0.98 (quality + 0.05))
                     bestBlob bestSize bestQuality
      end
    else
      (* Good enough *)
      ret (resultBlob, bestBlob).

End pageSearch.

(** The body of the [for] loop over [pagesToProcess], after the progress
    notification: one page.  It throws when the page is not in the document.
    For the output format 'application/pdf' the kept blob is wrapped by
    pdf-lib, whose [embedJpg] is taken to accept it. *)
Definition processPage (file : Blob) (preset : Preset) (pageCount : nat)
    (renderScale : JS.number) (pageNum : nat) : M (option PdfOutcome) :=
  let originalSize := blob_size file in
  let targetSizeBytes := maxSizeKB preset * 1024 in
  (* Render page to canvas with high quality *)
  await '(page, width, height) <- renderPageToCanvas file pageNum renderScale ;;
  let originalDimensions := mkDims width height in
  (* Step 1: Create test thumbnail to estimate compression *)
  let testScale := 0.15 in
  let testWidth := JS.Math_max 80 (JS.Math_floor (width * testScale)) in
  let testHeight := JS.Math_max 80 (JS.Math_floor (height * testScale)) in
  let testCanvas := DrawnCanvas testWidth testHeight None page 0 0 testWidth testHeight in
  testBlob <- toBlob testCanvas (format preset) 0.75 ;;
  (* Estimate full size at this quality *)
  let estimatedFullSize := blob_size testBlob / (testScale * testScale) in
  (* Calculate optimal dimensions using formula *)
  let '(mkDims optimalWidth optimalHeight) :=
    planPageDimensions width height targetSizeBytes estimatedFullSize
                       (widthPx preset) (heightPx preset) in
  (* Create resized canvas with optimal dimensions *)
  let resizedCanvas :=
    DrawnCanvas optimalWidth optimalHeight None page 0 0 optimalWidth optimalHeight in
  (* Iterative quality compression *)
  '(resultBlob, bestBlob) <-
    pageSearch resizedCanvas (format preset) targetSizeBytes
               (maxIterations - 1) 0.92 None infinity 0.92 ;;
  (* Use best result *)
  let resultBlob := match bestBlob with Some b => b | None => resultBlob end in
  (* If output format is PDF, wrap the image in a PDF *)
  resultBlob <-
    (if String.eqb (format preset) "application/pdf" then
       save [mkPdfPage (widthPx preset) (heightPx preset) resultBlob
                       0 0 (widthPx preset) (heightPx preset)]
     else ret resultBlob) ;;
  ret (Some (mkPdfOutcome
         (mkOutcome (Some resultBlob) originalSize (blob_size resultBlob)
                    originalDimensions (mkDims optimalWidth optimalHeight)
                    (blob_size resultBlob >? targetSizeBytes) false)
         pageCount pageNum)).

(** [extractAndProcessPages]. *)
Definition extractAndProcessPages (file : Blob) (pageSpec : PageSpec)
    (preset : Preset) (onProgress : option Callback) : M (option (list PdfOutcome)) :=
  notify onProgress 10 ;;
  pageCount <- getPageCount file ;;
  (* Determine which pages to process *)
  let pagesToProcess :=
    match pageSpec with
    | AllPages => seq 1 pageCount
    | OnePage n => [n]
    end in
  (* Use higher render scale for better quality *)
  let renderScale := JS.Math_max 2.0 (widthPx preset / 400) in
  await results <- forEach (fun '(idx, pageNum) =>
      let baseProgress := 20 in
      let progressPerFile := 70 / JS.ofNat (List.length pagesToProcess) in
      notify onProgress (baseProgress + JS.Math_round (JS.ofNat idx * progressPerFile)) ;;
      processPage file preset pageCount renderScale pageNum)
    (combine (seq 0 (List.length pagesToProcess)) pagesToProcess) ;;
  notify onProgress 100 ;;
  ret (Some results).

End Capabilities.
End PDFProcessor.

(** ** Vocabulary of the statements

    What the theorems below talk about: the acceptance band, the pieces of a
    trace, the values the searches report as progress, and a few concrete
    decoders and encoders on which the code is run. *)

Import ImageProcessor.

(** The acceptance band of a quality search: [0.85 * target <= size <= target]. *)
Definition inBand (targetSizeBytes : JS.number) (b : Blob) : bool :=
  (blob_size b <=? targetSizeBytes) && (blob_size b >=? targetSizeBytes * 0.85).

(** No encode of the list is at most the target. *)
Definition neverUnder (encoder : Canvas -> string -> JS.number -> Blob)
    (targetSizeBytes : JS.number) (es : list (Canvas * string * JS.number)) : bool :=
  forallb (fun '(c, f, q) => negb (blob_size (encoder c f q) <=? targetSizeBytes)) es.

(** The documents a trace serialised, in order. *)
Definition savesOf (t : list Event) : list (list PdfPage) :=
  flat_map (fun e => match e with SavePDF pages => [pages] | _ => [] end) t.

(** Qualities the search can be at after [k] iterations that all found the
    encode over target (each lowered the quality by 0.15 or 0.08). *)
Fixpoint floorLevels (k : nat) : list JS.number :=
  match k with
  | O => [startQuality]
  | S k' =>
      flat_map (fun q =>
          if q <=? minQuality then []
          else [JS.Math_max minQuality (q - 0.15); JS.Math_max minQuality (q - 0.08)])
        (floorLevels k')
  end.

(** The progress value [tryCompress] reports at iteration [i]. *)
Definition searchProgress (iteration : nat) : JS.number :=
  JS.Math_min 100 (JS.Math_round ((JS.ofNat iteration / JS.ofNat maxIterations) * 100)).

(** What may occur in the trace of one quality search on [canvas]. *)
Definition searchEvent (canvas : Canvas) (fmt : string) (cb : option Callback) (e : Event) : Prop :=
  match e with
  | Encode c f _ => c = canvas /\ f = fmt
  | Progress p =>
      exists i g, (i < maxIterations)%nat /\ cb = Some g /\ In p (g (searchProgress i))
  | _ => False
  end.

(** The pages [extractAndProcessPages] processes. *)
Definition pagesToProcess (numPages : Blob -> nat) (file : Blob) (pageSpec : PageSpec)
    : list nat :=
  match pageSpec with
  | AllPages => seq 1 (numPages file)
  | OnePage n => [n]
  end.

Module Examples.
Definition zeros (n : nat) : list Byte.byte := repeat Byte.x00 n.
Definition jpeg (n : nat) : Blob := mkBlob "image/jpeg" (zeros n).
Definition png (n : nat) : Blob := mkBlob "image/png" (zeros n).
Definition pdf (n : nat) : Blob := mkBlob "application/pdf" (zeros n).

(** A decoder that finds a 1600 x 1200 picture in every file. *)
Definition photo (file : Blob) : Image := mkImage 1600 1200 [].

(** An encoder whose output is 5000 bytes at every quality. *)
Definition stubborn (c : Canvas) (f : string) (q : JS.number) : Blob := jpeg 5000.

(** An encoder whose output is 500 bytes at the qualities strictly between
    0.9 and 0.95 (0.92 is one) and 2000 bytes at every other quality. *)
Definition dip (c : Canvas) (f : string) (q : JS.number) : Blob :=
  if (0.9 <? q) && (q <? 0.95) then jpeg 500 else jpeg 2000.

Definition canvas0 : Canvas := resizeToExact (photo (png 0)) 1600 1200.

(** An encoder whose output depends on the size of the canvas only: 3000
    bytes for a canvas at most 100 wide, 5000 bytes for a wider one. *)
Definition byWidth (c : Canvas) (f : string) (q : JS.number) : Blob :=
  match c with
  | DrawnCanvas w _ _ _ _ _ _ _ => if w <=? 100 then jpeg 3000 else jpeg 5000
  | PageCanvas _ => jpeg 5000
  end.
End Examples.

Module PdfExamples.
Import Examples.
Definition onePage (file : Blob) : nat := 1.
Definition a4 (file : Blob) (pageNum : nat) (scale : JS.number) : Image :=
  mkImage (595 * scale) (842 * scale) [].
(** A page encoder whose output grows with the quality: 8000 bytes below
    0.78, 8500 bytes below 0.83, 12000 bytes from there on. *)
Definition growing (c : Canvas) (f : string) (q : JS.number) : Blob :=
  if q <? 0.78 then jpeg 8000 else if q <? 0.83 then jpeg 8500 else jpeg 12000.
Definition jpgSize (dataUrl : Blob) : Dimensions JS.number := mkDims 1190 1684.
(** A serialiser that adds 192 bytes to the images it embeds. *)
Definition container (pages : list PdfPage) : Blob :=
  pdf (192 + list_sum (map (fun p => List.length (blob_bytes (page_image p))) pages)).
(** A document of three pages. *)
Definition threePages (file : Blob) : nat := 3.
End PdfExamples.

Module BandExamples.
Import Examples.
(** An encoder whose output is 2000 bytes above quality 0.9 and 950 bytes
    below. *)
Definition step (c : Canvas) (f : string) (q : JS.number) : Blob :=
  if 0.9 <? q then jpeg 2000 else jpeg 950.
End BandExamples.

(** ** Thumbnail sizing (imageProcessor.js) *)

Module Sizing.
Section Sizing.
Context {num : Type} `{Arith num}.
Local Open Scope arith_scope.

(** [createThumbnail] of imageProcessor.js: the [width] and [height] given to
    the canvas and to [drawImage], from the decoded picture's size. *)
Definition createThumbnail (width height maxWidth maxHeight : num) : Dimensions num :=
  if width >? height then
    (* Landscape - fit to width *)
    if width >? maxWidth then mkDims maxWidth ((height * maxWidth) / width)
    else mkDims width height
  else
    (* Portrait - fit to height *)
    if height >? maxHeight then mkDims ((width * maxHeight) / height) maxHeight
    else mkDims width height.

End Sizing.
End Sizing.

(** ** [convertImageToPDF] (pdfProcessor.js) *)

Module ImageToPDF.
Section Capabilities.

(** The decoder behind [loadImage], the canvas encoder, pdf-lib's [embedPng]
    and [embedJpg] (the pixel size of the embedded image, or [None] when the
    call throws), and the serialiser behind [save]. *)
Variable decoder : Blob -> Image.
Variable encoder : Canvas -> string -> JS.number -> Blob.
Variables embedPng embedJpg : Blob -> option (Dimensions JS.number).
Variable serializer : list PdfPage -> Blob.

Definition minQuality : JS.number := 0.3.
Definition maxIterations : nat := 20.
Definition startQuality : JS.number := 0.92.

Section encodeLoop.
Variables (canvas : Canvas) (targetSizeBytes : JS.number).

(** The [while (iterations < maxIterations)] loop.  Its body runs at least
    once; the recursion is on the number of iterations that may still follow
    the current one.  The result is [imageBlob] at the exit of the loop. *)
Fixpoint encodeLoop (following : nat) (quality : JS.number) : M Blob :=
  imageBlob <- ImageProcessor.toBlob encoder canvas "image/jpeg" quality ;;
  if (blob_size imageBlob <=? targetSizeBytes) || (quality <=? minQuality) then
    ret imageBlob
  else
    match following with
    | O => ret imageBlob
    | S following' => encodeLoop following' (quality - 0.1)
    end.

End encodeLoop.

(** [convertImageToPDF]; [None] is the rejection of the returned promise
    when the embedding throws. *)
Definition convertImageToPDF (file : Blob) (targetSizeKB : JS.number)
    (onProgress : option Callback) : M (option PdfOutcome) :=
  notify onProgress 10 ;;
  let originalSize := blob_size file in
  let targetSizeBytes := targetSizeKB * 1024 in
  (* Load the image *)
  img <- ImageProcessor.loadImage decoder file ;;
  let originalDimensions := mkDims (img_width img) (img_height img) in
  notify onProgress 30 ;;
  (* Create canvas to get compressed image *)
  let canvas :=
    DrawnCanvas (img_width img) (img_height img) None img 0 0
                (img_width img) (img_height img) in
  notify onProgress 50 ;;
  (* Compress image to target size first *)
  imageBlob <- encodeLoop canvas targetSizeBytes (maxIterations - 1) startQuality ;;
  notify onProgress 70 ;;
  (* Embed image based on format *)
  match (if String.eqb (blob_type file) "image/png" then embedPng imageBlob
         else embedJpg imageBlob) with
  | None => ret None
  | Some embeddedImage =>
      (* Calculate page size to fit image while maintaining aspect ratio *)
      let imgRatio := width embeddedImage / height embeddedImage in
      let pageWidth := 595 in
      let pageHeight := pageWidth / imgRatio in
      (* Ensure page isn't too tall *)
      let '(pageWidth, pageHeight) :=
        if pageHeight >? 842 then (842 * imgRatio, 842) else (pageWidth, pageHeight) in
      blob <- PDFProcessor.save serializer
                [mkPdfPage pageWidth pageHeight imageBlob 0 0 pageWidth pageHeight] ;;
      notify onProgress 100 ;;
      ret (Some (mkPdfOutcome
                   (mkOutcome (Some blob) originalSize (blob_size blob)
                              originalDimensions
                              (mkDims (JS.Math_round pageWidth) (JS.Math_round pageHeight))
                              (blob_size blob >? targetSizeBytes) false)
                   1 1))
  end.

End Capabilities.
End ImageToPDF.

(** The canvas [convertImageToPDF] encodes: the picture at its own size. *)
Definition conversionCanvas (decoder : Blob -> Image) (file : Blob) : Canvas :=
  DrawnCanvas (img_width (decoder file)) (img_height (decoder file)) None (decoder file)
              0 0 (img_width (decoder file)) (img_height (decoder file)).

(** The qualities the loop of [convertImageToPDF] can encode at:
    0.92, 0.92 - 0.1, ... *)
Fixpoint conversionQualities (n : nat) (quality : JS.number) : list JS.number :=
  match n with
  | O => []
  | S n' => quality :: conversionQualities n' (quality - 0.1)
  end.

Definition is_some {A : Type} (o : option A) : bool :=
  match o with Some _ => true | None => false end.

(** Some encode of the list is at most the target. *)
Definition someUnder (encoder : Canvas -> string -> JS.number -> Blob)
    (targetSizeBytes : JS.number) (es : list (Canvas * string * JS.number)) : bool :=
  existsb (fun '(c, f, q) => blob_size (encoder c f q) <=? targetSizeBytes) es.

(** What a quality search knows about its best blob when [r] iterations are
    left: none is recorded at the first iteration; while none is recorded
    [bestSize] is still [Infinity]; a recorded one is at most the target. *)
Definition bestKnown (targetSizeBytes : JS.number) (r : nat) (bb : option Blob)
    (bs : JS.number) : Prop :=
  (r <= ImageProcessor.maxIterations)%nat /\
  (r = ImageProcessor.maxIterations -> bb = None) /\
  (bb = None -> bs = infinity) /\
  (forall b, bb = Some b -> (blob_size b <=? targetSizeBytes) = true).

(** The blob a page keeps at the exit of its search: the best blob if one
    was recorded, else the last encode. *)
Definition keptBlob (p : Blob * option Blob) : Blob :=
  match snd p with
  | Some b => b
  | None => fst p
  end.

(** The pages a trace rendered, in order. *)
Definition rendersOf (t : list Event) : list nat :=
  flat_map (fun e => match e with RenderPage _ n _ => [n] | _ => [] end) t.

(** Stand-ins for pdf-lib's embedders: [embedPng] throws on what is not a
    PNG, [embedJpg] reads a 1600 x 1200 picture. *)
Module ConversionExamples.
Definition embedPng (b : Blob) : option (Dimensions JS.number) :=
  if String.eqb (blob_type b) "image/png" then Some (mkDims 1600 1200) else None.
Definition embedJpg (b : Blob) : option (Dimensions JS.number) :=
  if String.eqb (blob_type b) "image/jpeg" then Some (mkDims 1600 1200) else None.
End ConversionExamples.

(** ** Facts about JavaScript numbers *)

Section FloatOrder.

Lemma SFcompare_antisym (x y : spec_float) :
  SFcompare y x = option_map CompOpp (SFcompare x y).
Proof.
  destruct x as [sx|sx| |sx mx ex], y as [sy|sy| |sy my ey]; simpl;
    try reflexivity;
    try (destruct sx; reflexivity);
    try (destruct sy; reflexivity);
    try (destruct sx, sy; reflexivity).
  destruct sx, sy; simpl; try reflexivity.
  - rewrite (Z.compare_antisym ex ey).
    destruct (ex ?= ey)%Z; simpl; try reflexivity.
    do 2 f_equal. symmetry. exact (Pos.compare_cont_antisym mx my Eq).
  - rewrite (Z.compare_antisym ex ey).
    destruct (ex ?= ey)%Z; simpl; try reflexivity.
    f_equal. symmetry. exact (Pos.compare_cont_antisym mx my Eq).
Qed.

(** [x <= y] excludes [y < x]. *)
Lemma leb_not_gtb (x y : float) : (x <=? y) = true -> (y <? x) = false.
Proof.
  rewrite FloatAxioms.leb_spec, FloatAxioms.ltb_spec. unfold SFleb, SFltb.
  rewrite (SFcompare_antisym (Prim2SF x) (Prim2SF y)).
  destruct (SFcompare (Prim2SF x) (Prim2SF y)) as [[]|]; simpl; congruence.
Qed.

Lemma ltb_not_geb (x y : float) : (x <? y) = true -> (y <=? x) = false.
Proof.
  rewrite FloatAxioms.leb_spec, FloatAxioms.ltb_spec. unfold SFleb, SFltb.
  rewrite (SFcompare_antisym (Prim2SF x) (Prim2SF y)).
  destruct (SFcompare (Prim2SF x) (Prim2SF y)) as [[]|]; simpl; congruence.
Qed.

Lemma ltb_leb (x y : float) : (x <? y) = true -> (x <=? y) = true.
Proof.
  rewrite FloatAxioms.leb_spec, FloatAxioms.ltb_spec. unfold SFleb, SFltb.
  destruct (SFcompare (Prim2SF x) (Prim2SF y)) as [[]|]; simpl; congruence.
Qed.

(** A number that is below some number is below [Infinity]. *)
Lemma ltb_infinity (x y : float) : (x <? y) = true -> (x <? infinity) = true.
Proof.
  rewrite !FloatAxioms.ltb_spec. unfold SFltb.
  change (Prim2SF infinity) with (S754_infinity false).
  destruct (Prim2SF x) as [sx|sx| |sx mx ex], (Prim2SF y) as [sy|sy| |sy my ey];
    simpl; try congruence; try (destruct sx; simpl; congruence);
    try (destruct sx, sy; simpl; congruence).
Qed.

(** Two numbers of which neither is NaN are comparable. *)
Lemma not_gtb_leb (x y : float) :
  Prim2SF x <> S754_nan -> Prim2SF y <> S754_nan ->
  (y <? x) = false -> (x <=? y) = true.
Proof.
  rewrite FloatAxioms.leb_spec, FloatAxioms.ltb_spec. unfold SFleb, SFltb.
  rewrite (SFcompare_antisym (Prim2SF x) (Prim2SF y)).
  destruct (Prim2SF x) as [sx|sx| |sx mx ex], (Prim2SF y) as [sy|sy| |sy my ey];
    try congruence; intros _ _;
    destruct (SFcompare _ _) as [[]|] eqn:E; simpl; try congruence;
    simpl in E; try discriminate;
    try (destruct sx; discriminate); try (destruct sy; discriminate);
    try (destruct sx, sy; discriminate).
Qed.

Lemma ltb_left_not_nan (x y : float) : (x <? y) = true -> Prim2SF x <> S754_nan.
Proof.
  rewrite FloatAxioms.ltb_spec. unfold SFltb. intros H E. rewrite E in H. discriminate.
Qed.

Lemma ltb_right_not_nan (x y : float) : (x <? y) = true -> Prim2SF y <> S754_nan.
Proof.
  rewrite FloatAxioms.ltb_spec. unfold SFltb. intros H E. rewrite E in H.
  destruct (Prim2SF x); discriminate.
Qed.

Lemma mul_not_nan_left (x y : float) : Prim2SF (x * y) <> S754_nan -> Prim2SF x <> S754_nan.
Proof.
  rewrite FloatAxioms.mul_spec. intros H E. apply H. rewrite E. reflexivity.
Qed.

End FloatOrder.

Section Finite.
Local Open Scope Z_scope.

Ltac std_Z :=
  unfold fexp, emin, prec, emax in *;
  change IntDef.Z.max with Z.max in *;
  change IntDef.Z.sub with Z.sub in *;
  change IntDef.Z.add with Z.add in *.

Lemma digits2_pos_bound p : forall n, Zpos p < 2 ^ n -> 0 <= n -> Zpos (digits2_pos p) <= n.
Proof.
  induction p as [p IH|p IH|]; intros n Hp Hn; simpl.
  - assert (n <> 0) by (intros ->; simpl in Hp; lia).
    replace n with (Z.succ (n - 1)) in Hp by lia.
    rewrite Z.pow_succ_r in Hp by lia.
    specialize (IH (n - 1)). lia.
  - assert (n <> 0) by (intros ->; simpl in Hp; lia).
    replace n with (Z.succ (n - 1)) in Hp by lia.
    rewrite Z.pow_succ_r in Hp by lia.
    specialize (IH (n - 1)). lia.
  - assert (n <> 0) by (intros ->; simpl in Hp; lia). lia.
Qed.

Lemma digits2_pos_succ p : Zpos (digits2_pos (Pos.succ p)) <= Zpos (digits2_pos p) + 1.
Proof. induction p; simpl; lia. Qed.

Lemma Zdigits2_succ m : 0 <= m -> Zdigits2 (m + 1) <= Zdigits2 m + 1.
Proof.
  destruct m as [|p|p]; simpl; try lia. intros _.
  rewrite Pos.add_1_r. apply digits2_pos_succ.
Qed.

Lemma Zdigits2_nonneg m : 0 <= Zdigits2 m.
Proof. destruct m; simpl; lia. Qed.

Lemma shr_1_digits mrs :
  0 <= shr_m mrs ->
  0 <= shr_m (shr_1 mrs) /\ Zdigits2 (shr_m (shr_1 mrs)) <= Zdigits2 (shr_m mrs).
Proof.
  destruct mrs as [m r s]. simpl. destruct m as [|[p|p|]|p]; simpl; lia.
Qed.

Lemma iter_shr_1_digits p : forall mrs,
  0 <= shr_m mrs ->
  0 <= shr_m (SpecFloat.iter_pos shr_1 p mrs) /\
  Zdigits2 (shr_m (SpecFloat.iter_pos shr_1 p mrs)) <= Zdigits2 (shr_m mrs).
Proof.
  induction p as [p IH|p IH|]; intros mrs H; simpl.
  - destruct (shr_1_digits mrs H) as [H1 H2].
    destruct (IH _ H1) as [H3 H4]. destruct (IH _ H3) as [H5 H6]. lia.
  - destruct (IH _ H) as [H3 H4]. destruct (IH _ H3) as [H5 H6]. lia.
  - apply shr_1_digits; auto.
Qed.

Lemma digits2_iter_xO d : forall m,
  Zpos (digits2_pos (Pos.iter xO m d)) = Zpos (digits2_pos m) + Zpos d.
Proof.
  induction d using Pos.peano_ind; intros m.
  - simpl. lia.
  - rewrite Pos.iter_succ. simpl. rewrite Pos2Z.inj_succ, IHd. lia.
Qed.

Lemma shr_fexp_bounds m e l :
  0 <= m ->
  let r := shr_fexp prec emax m e l in
  0 <= shr_m (fst r) /\ Zdigits2 (shr_m (fst r)) <= Zdigits2 m /\
  snd r = Z.max e (fexp prec emax (Zdigits2 m + e)).
Proof.
  intros Hm. unfold shr_fexp, shr.
  assert (Hrec : shr_m (shr_record_of_loc m l) = m) by (destruct l as [|[]]; reflexivity).
  destruct (fexp prec emax (Zdigits2 m + e) - e) as [|p|p] eqn:E; simpl.
  - rewrite Hrec. lia.
  - destruct (iter_shr_1_digits p (shr_record_of_loc m l)) as [H1 H2]; rewrite Hrec in *; auto.
    lia.
  - rewrite Hrec. lia.
Qed.

Lemma round_nearest_even_bounds m l :
  0 <= m -> 0 <= round_nearest_even m l /\
  Zdigits2 (round_nearest_even m l) <= Zdigits2 m + 1.
Proof.
  intros Hm. pose proof (Zdigits2_succ m Hm).
  destruct l as [|[]]; simpl; try destruct (Z.even m); lia.
Qed.

Lemma binary_round_aux_not_inf s m e s' :
  0 < m -> Zdigits2 m <= 120 -> Zdigits2 m + e <= 63 -> e <= 0 ->
  binary_round_aux prec emax s m e loc_Exact <> S754_infinity s'.
Proof.
  intros Hm Hd0 Hd He. unfold binary_round_aux.
  pose proof (shr_fexp_bounds m e loc_Exact ltac:(lia)) as H1. simpl in H1.
  destruct (shr_fexp prec emax m e loc_Exact) as [mrs' e']. simpl in H1.
  destruct H1 as (H1 & H2 & H3).
  pose proof (round_nearest_even_bounds (shr_m mrs') (loc_of_shr_record mrs') H1) as [H4 H5].
  pose proof (shr_fexp_bounds _ e' loc_Exact H4) as H6. simpl in H6.
  destruct (shr_fexp prec emax _ e' loc_Exact) as [mrs'' e'']. simpl in H6.
  destruct H6 as (H6 & H7 & H8).
  destruct (shr_m mrs''); try discriminate.
  assert (e'' <= emax - prec).
  { subst e'' e'. std_Z. lia. }
  apply Z.leb_le in H. rewrite H. discriminate.
Qed.

Lemma binary_normalize_not_inf z s' :
  0 <= z < 2 ^ 63 -> binary_normalize prec emax z 0 false <> S754_infinity s'.
Proof.
  intros Hz. destruct z as [|p|p]; simpl; try discriminate; try lia.
  unfold binary_round, shl_align.
  pose proof (digits2_pos_bound p 63 ltac:(lia) ltac:(lia)) as Hd.
  destruct (fexp prec emax (Zpos (digits2_pos p) + 0) - 0) as [|d|d] eqn:E.
  - apply binary_round_aux_not_inf; simpl; lia.
  - apply binary_round_aux_not_inf; simpl; lia.
  - rewrite <- Pos2Z.opp_pos in E. apply binary_round_aux_not_inf; try lia.
    + unfold Zdigits2. rewrite digits2_iter_xO. std_Z. lia.
    + unfold Zdigits2. rewrite digits2_iter_xO. std_Z. lia.
Qed.

End Finite.

(** [blob.size] is a byte count: never [Infinity]. *)
Lemma ofZ_not_infinity z : (0 <= z)%Z -> JS.ofZ z <> infinity.
Proof.
  intros Hz E. unfold JS.ofZ in E.
  replace (z <? 0)%Z with false in E by (symmetry; apply Z.ltb_ge; lia).
  apply (f_equal Prim2SF) in E. rewrite of_uint63_spec in E.
  change (Prim2SF infinity) with (S754_infinity false) in E.
  revert E. apply binary_normalize_not_inf.
  pose proof (Uint63.to_Z_bounded (Uint63.of_Z z)). unfold wB, size in H. 
  change (2 ^ Z.of_nat 63)%Z with (2 ^ 63)%Z in H. lia.
Qed.

Lemma blob_size_not_infinity b : blob_size b <> infinity.
Proof. apply ofZ_not_infinity. lia. Qed.

(** ** The quality search of imageProcessor.js *)

Lemma fst_bind {A B} (m : M A) (k : A -> M B) : fst (bind m k) = fst (k (fst m)).
Proof. unfold bind. destruct m as [a t]. simpl. destruct (k a). reflexivity. Qed.

Lemma snd_bind {A B} (m : M A) (k : A -> M B) :
  snd (bind m k) = snd m ++ snd (k (fst m)).
Proof. unfold bind. destruct m as [a t]. simpl. destruct (k a). reflexivity. Qed.

Lemma encodesOf_app t1 t2 : encodesOf (t1 ++ t2) = encodesOf t1 ++ encodesOf t2.
Proof. apply flat_map_app. Qed.

Lemma progressOf_app t1 t2 : progressOf (t1 ++ t2) = progressOf t1 ++ progressOf t2.
Proof. apply flat_map_app. Qed.

Lemma encodesOf_progress l : encodesOf (map Progress l) = [].
Proof. induction l; simpl; auto. Qed.

Lemma encodesOf_notify cb p : encodesOf (snd (notify cb p)) = [].
Proof. destruct cb; simpl; auto using encodesOf_progress. Qed.

Import ImageProcessor.

Lemma fst_toBlob enc c f q : fst (toBlob enc c f q) = enc c f q.
Proof. reflexivity. Qed.
Lemma snd_toBlob enc c f q : snd (toBlob enc c f q) = [Encode c f q].
Proof. reflexivity. Qed.
Lemma fst_ret {A} (a : A) : fst (ret a) = a.
Proof. reflexivity. Qed.
Lemma snd_ret {A} (a : A) : snd (ret a) = [].
Proof. reflexivity. Qed.

Ltac monad_simpl :=
  repeat (rewrite ?fst_bind, ?snd_bind, ?fst_toBlob, ?snd_toBlob, ?fst_ret, ?snd_ret,
            ?encodesOf_app, ?encodesOf_notify, ?app_nil_r; cbn [app encodesOf flat_map]).

Section S.
Variable encoder : Canvas -> string -> JS.number -> Blob.
Variables (canvas : Canvas) (fmt : string) (kb : JS.number) (cb : option Callback).

Lemma tryCompress_band r : forall q0 bb bs bq pre q post,
  encodesOf (snd (tryCompress encoder canvas fmt kb cb r q0 bb bs bq))
    = pre ++ (canvas, fmt, q) :: post ->
  inBand (targetSizeBytes kb) (encoder canvas fmt q) = true ->
  post = [] /\
  fst (tryCompress encoder canvas fmt kb cb r q0 bb bs bq)
    = mkSearchResult (Some (encoder canvas fmt q)) (blob_size (encoder canvas fmt q)) q false.
Proof.
  induction r as [|r IH]; intros q0 bb bs bq pre q post.
  - simpl. destruct bb; simpl; intros E; destruct pre; discriminate.
  - cbn [tryCompress]. monad_simpl.
    set (blob := encoder canvas fmt q0).
    fold (minTargetBytes kb).
    destruct ((blob_size blob <=? targetSizeBytes kb) && (minTargetBytes kb <=? blob_size blob)) eqn:Hband.
    + monad_simpl. intros E Hq.
      destruct pre as [|x pre]; simpl in E.
      * injection E as Eq Ep. subst q0. auto.
      * destruct pre; discriminate.
    + destruct ((blob_size blob <=? targetSizeBytes kb) && (blob_size blob <? bs)).
      all: destruct ((maxIterations - S r =? 0)%nat && (blob_size blob <? minTargetBytes kb * 0.5)).
      all: try destruct (targetSizeBytes kb <? blob_size blob).
      all: try destruct (q0 <=? minQuality).
      all: try destruct ((blob_size blob <? minTargetBytes kb) && (q0 <? 0.98)).
      all: monad_simpl; intros E Hq.
      all: destruct pre as [|x pre]; simpl in E;
        [ injection E as Eq Ep; subst q0; unfold inBand in Hq; unfold minTargetBytes in Hband;
          fold blob in Hq; congruence | ].
      all: try (destruct pre; discriminate).
      all: injection E as _ E; eapply IH; eauto.
Qed.
End S.

Lemma floorLevels_9 : floorLevels 9 = [].
Proof. vm_compute. reflexivity. Qed.

Lemma floorLevels_empty k : (9 <= k)%nat -> floorLevels k = [].
Proof.
  induction 1.
  - apply floorLevels_9.
  - simpl. rewrite IHle. reflexivity.
Qed.

Lemma floorLevels_step k q red :
  In q (floorLevels k) -> (q <=? minQuality) = false ->
  red = 0.15 \/ red = 0.08 ->
  In (JS.Math_max minQuality (q - red)) (floorLevels (S k)).
Proof.
  intros Hin Hq Hred. simpl. apply in_flat_map. exists q. split; auto.
  rewrite Hq. destruct Hred; subst; simpl; auto.
Qed.

Section S.
Variable encoder : Canvas -> string -> JS.number -> Blob.
Variables (canvas : Canvas) (fmt : string) (kb : JS.number) (cb : option Callback).

(** Below the band and not over target: the encode is at most the target
    and below [Infinity]. *)
Lemma under_band_tracked (size : JS.number) :
  (targetSizeBytes kb <? size) = false ->
  (size <? minTargetBytes kb) = true ->
  (size <=? targetSizeBytes kb) && (size <? infinity) = true.
Proof.
  intros Hover Hunder. apply andb_true_intro; split.
  - apply not_gtb_leb; auto.
    + eapply ltb_left_not_nan; eauto.
    + apply ltb_right_not_nan in Hunder. unfold minTargetBytes in Hunder.
      eapply mul_not_nan_left; eauto.
  - eapply ltb_infinity; eauto.
Qed.

Lemma tryCompress_blob r : forall q bb bs bq,
  (r <= maxIterations)%nat ->
  bb <> None \/ (bs = infinity /\ In q (floorLevels (maxIterations - r))) ->
  r_blob (fst (tryCompress encoder canvas fmt kb cb r q bb bs bq)) <> None.
Proof.
  induction r as [|r IH]; intros q bb bs bq Hr Hinv.
  - simpl. destruct bb; simpl; try discriminate.
    destruct Hinv as [H|[_ H]]; [congruence|].
    rewrite floorLevels_empty in H by (unfold maxIterations; lia). destruct H.
  - cbn [tryCompress]. monad_simpl.
    set (blob := encoder canvas fmt q).
    destruct ((blob_size blob <=? targetSizeBytes kb) && (minTargetBytes kb <=? blob_size blob));
      [monad_simpl; discriminate|].
    destruct ((blob_size blob <=? targetSizeBytes kb) && (blob_size blob <? bs)) eqn:Htrack.
    all: destruct ((maxIterations - S r =? 0)%nat && (blob_size blob <? minTargetBytes kb * 0.5));
      [monad_simpl; discriminate|].
    all: destruct (targetSizeBytes kb <? blob_size blob) eqn:Hover.
    all: try (destruct (q <=? minQuality) eqn:Hq; [monad_simpl; discriminate|]).
    all: try (destruct ((blob_size blob <? minTargetBytes kb) && (q <? 0.98)) eqn:Hunder;
              [|monad_simpl; discriminate]).
    all: try (apply IH; [lia | left; discriminate]).
    + (* over target, nothing recorded now *)
      apply IH; [lia|].
      destruct Hinv as [H|[Hbs Hin]]; [left; assumption|right; split; [assumption|]].
      replace (maxIterations - r)%nat with (S (maxIterations - S r)) by lia.
      apply floorLevels_step; auto.
      destruct (targetSizeBytes kb * 2 <? blob_size blob); auto.
    + (* under the band, not recorded now: a best blob exists already *)
      apply IH; [lia|]. left.
      destruct Hinv as [H|[Hbs Hin]]; [assumption|]. subst bs.
      apply andb_prop in Hunder. destruct Hunder as [Hunder _].
      rewrite (under_band_tracked _ Hover Hunder) in Htrack. discriminate.
Qed.

Theorem compressImage_blob :
  r_blob (fst (compressImage encoder canvas fmt kb cb)) <> None.
Proof.
  unfold compressImage. apply tryCompress_blob; [lia|].
  right. split; [reflexivity|]. simpl. auto.
Qed.
End S.

Section S.
Variable encoder : Canvas -> string -> JS.number -> Blob.
Variables (canvas : Canvas) (fmt : string) (kb : JS.number) (cb : option Callback).

Lemma tryCompress_floor r : forall q0 bq pre q,
  (r = maxIterations -> (q0 <=? minQuality) = false) ->
  (r <= maxIterations)%nat ->
  encodesOf (snd (tryCompress encoder canvas fmt kb cb r q0 None infinity bq))
    = pre ++ [(canvas, fmt, q)] ->
  (blob_size (encoder canvas fmt q) >? targetSizeBytes kb) = true ->
  (q <=? minQuality) = true ->
  neverUnder encoder (targetSizeBytes kb)
    (encodesOf (snd (tryCompress encoder canvas fmt kb cb r q0 None infinity bq))) = true ->
  r_blob (fst (tryCompress encoder canvas fmt kb cb r q0 None infinity bq))
    = Some (encoder canvas fmt q) /\
  r_size (fst (tryCompress encoder canvas fmt kb cb r q0 None infinity bq)) = infinity /\
  r_warning (fst (tryCompress encoder canvas fmt kb cb r q0 None infinity bq)) = true.
Proof.
  induction r as [|r IH]; intros q0 bq pre q Hfirst Hr.
  - simpl. intros E. destruct pre; discriminate.
  - cbn [tryCompress]. monad_simpl.
    set (blob := encoder canvas fmt q0).
    intros E Hover Hq Hnever.
    assert (Hu : (blob_size blob <=? targetSizeBytes kb) = false).
    { revert Hnever.
      destruct ((blob_size blob <=? targetSizeBytes kb) && (minTargetBytes kb <=? blob_size blob));
        monad_simpl; unfold neverUnder; cbn [forallb]; fold blob;
        destruct (blob_size blob <=? targetSizeBytes kb); cbn [negb andb]; congruence. }
    revert E Hnever. rewrite Hu. cbn [andb].
    assert (Hit : ((maxIterations - S r =? 0)%nat && (blob_size blob <? minTargetBytes kb * 0.5)) = true
                  -> (q0 <=? minQuality) = false).
    { intros H. apply andb_prop in H. destruct H as [H _]. apply Nat.eqb_eq in H.
      apply Hfirst. unfold maxIterations in *. lia. }
    destruct ((maxIterations - S r =? 0)%nat && (blob_size blob <? minTargetBytes kb * 0.5)).
    { monad_simpl. intros E _. destruct pre as [|x pre]; cbn [app] in E.
      - injection E as E. subst q0. rewrite Hit in Hq; auto. discriminate.
      - destruct pre; discriminate. }
    destruct (targetSizeBytes kb <? blob_size blob) eqn:Hov0.
    + destruct (q0 <=? minQuality) eqn:Hq0.
      * monad_simpl. intros E _. destruct pre as [|x pre]; cbn [app] in E.
        -- injection E as E. subst q0. fold blob. auto.
        -- destruct pre; discriminate.
      * monad_simpl. intros E Hnever. destruct pre as [|x pre]; cbn [app] in E.
        -- injection E as E1 E2. subst q0. congruence.
        -- injection E as _ E. unfold neverUnder in Hnever. cbn [forallb] in Hnever.
           apply andb_prop in Hnever. destruct Hnever as [_ Hnever].
           eapply IH; eauto; unfold maxIterations in *; try lia; intros; lia.
    + destruct ((blob_size blob <? minTargetBytes kb) && (q0 <? 0.98)).
      all: monad_simpl; intros E Hnever; destruct pre as [|x pre]; cbn [app] in E;
        try (injection E; intros; subst q0; fold blob in Hover; congruence);
        try (destruct pre; discriminate).
      injection E as _ E. unfold neverUnder in Hnever. cbn [forallb] in Hnever.
      apply andb_prop in Hnever. destruct Hnever as [_ Hnever].
      eapply IH; eauto; unfold maxIterations in *; try lia; intros; lia.
Qed.
End S.

Section S.
Variable decoder : Blob -> Image.
Variable encoder : Canvas -> string -> JS.number -> Blob.

Lemma compressImage_eq canvas fmt kb cb :
  compressImage encoder canvas fmt kb cb
  = tryCompress encoder canvas fmt kb cb maxIterations startQuality None infinity startQuality.
Proof. reflexivity. Qed.

(** C10.  When [compressImage] stops at the quality floor (its last encode
    is over the target, at a quality of at most 0.3) and no encode of the
    run was at most the target, the result's blob is that last encode and
    its size is [Infinity], which is not the size of the blob. *)
Theorem floor_without_best_reports_infinity
    (canvas : Canvas) (fmt : string) (kb : JS.number) (cb : option Callback)
    (pre : list (Canvas * string * JS.number)) (q : JS.number) :
  encodesOf (snd (compressImage encoder canvas fmt kb cb)) = pre ++ [(canvas, fmt, q)] ->
  (blob_size (encoder canvas fmt q) >? targetSizeBytes kb) = true ->
  (q <=? minQuality) = true ->
  neverUnder encoder (targetSizeBytes kb)
    (encodesOf (snd (compressImage encoder canvas fmt kb cb))) = true ->
  r_blob (fst (compressImage encoder canvas fmt kb cb)) = Some (encoder canvas fmt q) /\
  r_size (fst (compressImage encoder canvas fmt kb cb)) = infinity /\
  r_size (fst (compressImage encoder canvas fmt kb cb)) <> blob_size (encoder canvas fmt q).
Proof.
  rewrite compressImage_eq. intros E Hover Hq Hnever.
  assert (H0 : maxIterations = maxIterations -> (startQuality <=? minQuality) = false).
  { intros _. vm_compute. reflexivity. }
  destruct (tryCompress_floor encoder canvas fmt kb cb maxIterations startQuality
              startQuality pre q H0 (le_n _) E Hover Hq Hnever) as (Hb & Hs & _).
  split; [exact Hb|]. split; [exact Hs|].
  intros H. apply (blob_size_not_infinity (encoder canvas fmt q)).
  exact (eq_trans (eq_sym H) Hs).
Qed.


Lemma tryCompress_cap q bs bq (canvas : Canvas) fmt kb cb :
  tryCompress encoder canvas fmt kb cb 0 q None bs bq
  = ret (mkSearchResult None 0 0 true).
Proof. reflexivity. Qed.
End S.

Lemma floor_without_best_reports_infinity_witness :
  r_blob (fst (compressImage Examples.stubborn Examples.canvas0 "image/jpeg" 1 (Some observer)))
    = Some (Examples.stubborn Examples.canvas0 "image/jpeg" 0.3) /\
  r_size (fst (compressImage Examples.stubborn Examples.canvas0 "image/jpeg" 1 (Some observer)))
    = infinity /\
  r_size (fst (compressImage Examples.stubborn Examples.canvas0 "image/jpeg" 1 (Some observer)))
    <> blob_size (Examples.stubborn Examples.canvas0 "image/jpeg" 0.3).
Proof.
  apply (floor_without_best_reports_infinity Examples.stubborn Examples.canvas0 "image/jpeg" 1
           (Some observer)
           (map (fun q => (Examples.canvas0, "image/jpeg", q))
                [0.92; 0.92 - 0.15; 0.92 - 0.15 - 0.15; 0.92 - 0.15 - 0.15 - 0.15;
                 0.92 - 0.15 - 0.15 - 0.15 - 0.15])
           0.3).
  - vm_compute. reflexivity.
  - vm_compute. reflexivity.
  - vm_compute. reflexivity.
  - vm_compute. reflexivity.
Defined.



(** C7 (the code departs from it).  The claim: the progress values an entry
    point delivers are non-decreasing and 100 is delivered exactly once.  On
    a 90000-byte source [processImage] reports 55 and then 0, 4, ...: it hands
    its own callback to [compressImage], which counts from 0 again.  On a
    source within the target it reports 10 and 20 and never 100: the
    passthrough returns before the final notification, which only the resize
    path makes. *)
Lemma processImage_progress_restarts :
  progressOf (snd (processImage Examples.photo Examples.stubborn (Examples.jpeg 90000)
                     (mkPreset 1 "image/jpeg" 800 1067) (Some observer)))
  = [10; 20; 35; 45; 55; 0; 4; 8; 12; 16; 20; 100]
  /\ progressOf (snd (processImage Examples.photo Examples.stubborn (Examples.jpeg 900)
                        (mkPreset 1 "image/jpeg" 800 1067) (Some observer)))
     = [10; 20].
Proof. vm_compute. split; reflexivity. Qed.


(** C9 fails as stated: no caller ever receives a result without bytes from
    [compressImage]. *)
Lemma compressImage_never_resolves_null :
  ~ exists encoder canvas fmt kb cb,
      r_blob (fst (compressImage encoder canvas fmt kb cb)) = None.
Proof.
  intros (encoder & canvas & fmt & kb & cb & H).
  exact (compressImage_blob encoder canvas fmt kb cb H).
Qed.

(** C9, amended.  At the iteration cap [tryCompress] resolves with
    [{blob: null, size: 0, quality: 0, warning: true}] when no best blob is
    recorded, and with the recorded best blob, its size and quality and
    [warning = bestSize > target] otherwise; but [compressImage] never
    resolves with a null blob: as long as no encode is at most the target,
    every iteration lowers the quality, and after nine iterations none is left
    above the floor. *)
Theorem cap_branch_null_is_unreachable :
  (forall encoder canvas fmt kb cb q bs bq,
     tryCompress encoder canvas fmt kb cb 0 q None bs bq
     = ret (mkSearchResult None 0 0 true)) /\
  (forall encoder canvas fmt kb cb q b bs bq,
     tryCompress encoder canvas fmt kb cb 0 q (Some b) bs bq
     = ret (mkSearchResult (Some b) bs bq (bs >? targetSizeBytes kb))) /\
  (forall encoder canvas fmt kb cb,
     r_blob (fst (compressImage encoder canvas fmt kb cb)) <> None) /\
  floorLevels 9 = [].
Proof.
  split; [reflexivity|]. split; [reflexivity|]. split.
  - intros. apply compressImage_blob.
  - apply floorLevels_9.
Qed.

Lemma notify_searchEvent canvas fmt cb i :
  (i < maxIterations)%nat ->
  Forall (searchEvent canvas fmt cb) (snd (notify cb (searchProgress i))).
Proof.
  intros Hi. destruct cb as [g|]; simpl; [|constructor].
  apply Forall_forall. intros e He. apply in_map_iff in He.
  destruct He as (p & <- & Hp). simpl. exists i, g. auto.
Qed.

Section S.
Variable encoder : Canvas -> string -> JS.number -> Blob.
Variables (canvas : Canvas) (fmt : string) (kb : JS.number) (cb : option Callback).

Lemma tryCompress_trace r : forall q bb bs bq,
  (r <= maxIterations)%nat ->
  Forall (searchEvent canvas fmt cb)
         (snd (tryCompress encoder canvas fmt kb cb r q bb bs bq)).
Proof.
  induction r as [|r IH]; intros q bb bs bq Hr.
  - simpl. destruct bb; constructor.
  - cbn [tryCompress]. rewrite !snd_bind. rewrite snd_toBlob, fst_toBlob.
    fold (searchProgress (maxIterations - S r)).
    set (blob := encoder canvas fmt q).
    apply Forall_app. split; [repeat constructor|].
    apply Forall_app. split.
    { apply notify_searchEvent. unfold maxIterations in *. lia. }
    destruct ((blob_size blob <=? targetSizeBytes kb) && (minTargetBytes kb <=? blob_size blob));
      [constructor|].
    destruct ((blob_size blob <=? targetSizeBytes kb) && (blob_size blob <? bs)).
    all: destruct ((maxIterations - S r =? 0)%nat && (blob_size blob <? minTargetBytes kb * 0.5));
      [constructor|].
    all: destruct (targetSizeBytes kb <? blob_size blob).
    all: try (destruct (q <=? minQuality); [constructor|]).
    all: try (destruct ((blob_size blob <? minTargetBytes kb) && (q <? 0.98)); [|constructor]).
    all: apply IH; lia.
Qed.

Lemma compressImage_trace :
  Forall (searchEvent canvas fmt cb) (snd (compressImage encoder canvas fmt kb cb)).
Proof. rewrite compressImage_eq. apply tryCompress_trace. apply le_n. Qed.

Lemma compressImage_decodes :
  decodesOf (snd (compressImage encoder canvas fmt kb cb)) = [].
Proof.
  pose proof compressImage_trace as H.
  induction H as [|e t He _ IH]; [reflexivity|].
  destruct e; simpl in *; try contradiction; exact IH.
Qed.
End S.

(** ** [processImage] *)

Section ImageFacts.
Variable decoder : Blob -> Image.
Variable encoder : Canvas -> string -> JS.number -> Blob.
Variables (file : Blob) (preset : Preset).

Lemma fst_emit e : fst (emit e) = tt.
Proof. reflexivity. Qed.
Lemma snd_emit e : snd (emit e) = [e].
Proof. reflexivity. Qed.

Ltac mrew :=
  repeat progress (rewrite ?fst_bind, ?snd_bind, ?fst_emit, ?snd_emit, ?fst_ret, ?snd_ret).

Lemma encodesOf_nil : encodesOf [] = [].
Proof. reflexivity. Qed.
Lemma encodesOf_encode c f q t : encodesOf (Encode c f q :: t) = (c, f, q) :: encodesOf t.
Proof. reflexivity. Qed.
Lemma encodesOf_decode f t : encodesOf (Decode f :: t) = encodesOf t.
Proof. reflexivity. Qed.
Lemma if_true {A} (a b : A) : (if true then a else b) = a.
Proof. reflexivity. Qed.
Lemma if_false {A} (a b : A) : (if false then a else b) = b.
Proof. reflexivity. Qed.
Lemma cons_app {A} (x : A) l1 l2 : (x :: l1) ++ l2 = x :: (l1 ++ l2).
Proof. reflexivity. Qed.

Ltac enc_norm :=
  repeat progress (rewrite ?fst_ret, ?snd_ret, ?encodesOf_app, ?encodesOf_notify,
                     ?encodesOf_encode, ?encodesOf_decode, ?encodesOf_nil,
                     ?cons_app, ?app_nil_l, ?app_nil_r, ?if_true, ?if_false,
                     ?andb_true_l, ?andb_false_l).

Lemma progressOf_nil : progressOf [] = [].
Proof. reflexivity. Qed.
Lemma progressOf_encode c f q t : progressOf (Encode c f q :: t) = progressOf t.
Proof. reflexivity. Qed.
Lemma progressOf_decode f t : progressOf (Decode f :: t) = progressOf t.
Proof. reflexivity. Qed.
Lemma progressOf_observer p : progressOf (snd (notify (Some observer) p)) = [p].
Proof. reflexivity. Qed.
Lemma decodesOf_app t1 t2 : decodesOf (t1 ++ t2) = decodesOf t1 ++ decodesOf t2.
Proof. apply flat_map_app. Qed.
Lemma decodesOf_nil : decodesOf [] = [].
Proof. reflexivity. Qed.
Lemma decodesOf_encode c f q t : decodesOf (Encode c f q :: t) = decodesOf t.
Proof. reflexivity. Qed.
Lemma decodesOf_decode f t : decodesOf (Decode f :: t) = f :: decodesOf t.
Proof. reflexivity. Qed.
Lemma decodesOf_notify cb p : decodesOf (snd (notify cb p)) = [].
Proof. destruct cb as [g|]; [|reflexivity]. simpl. induction (g p); simpl; auto. Qed.

Ltac dec_norm :=
  repeat progress (rewrite ?fst_ret, ?snd_ret, ?decodesOf_app, ?decodesOf_notify,
                     ?decodesOf_encode, ?decodesOf_decode, ?decodesOf_nil,
                     ?compressImage_decodes,
                     ?cons_app, ?app_nil_l, ?app_nil_r, ?if_true, ?if_false).

(** [processImage] decodes its source exactly once, whatever the preset. *)
Lemma processImage_decodes cb :
  decodesOf (snd (processImage decoder encoder file preset cb)) = [file].
Proof.
  unfold processImage, loadImage, toBlob. mrew.
  destruct (blob_size file <=? maxSizeKB preset * 1024).
  - destruct (String.eqb (blob_type file) (format preset)).
    + dec_norm. reflexivity.
    + mrew. dec_norm. reflexivity.
  - mrew.
    match goal with |- context [if ?c then bind _ _ else _] => destruct c end.
    + mrew.
      match goal with |- context [if ?c then ret _ else _] => destruct c end.
      all: dec_norm; reflexivity.
    + dec_norm. reflexivity.
Qed.
End ImageFacts.

(** C6 (the code departs from it).  The claim: after the fallback retry
    [processImage] returns whichever of the two attempts produced the smaller
    encoded size.  With the encoder [byWidth] and a 1 KB target every encode
    of the first attempt (267 x 200) has 5000 bytes and every encode of the
    retry (100 x 100) has 3000 bytes.  Both searches end at the quality floor
    without a best blob and report [size = Infinity]; the test
    [retryResult.size < result.size] compares these reported sizes,
    [Infinity < Infinity] is false, and the outcome is the 5000-byte first
    attempt, with [newSize = Infinity]. *)
Theorem retry_discards_smaller_encode :
  map (fun e => blob_size (Examples.byWidth (fst (fst e)) (snd (fst e)) (snd e)))
      (encodesOf (snd (processImage Examples.photo Examples.byWidth (Examples.jpeg 90000)
                         (mkPreset 1 "image/jpeg" 800 1067) (Some observer))))
  = [5000; 5000; 5000; 5000; 5000; 5000; 5000; 3000; 3000; 3000; 3000; 3000; 3000]
  /\ fst (processImage Examples.photo Examples.byWidth (Examples.jpeg 90000)
            (mkPreset 1 "image/jpeg" 800 1067) (Some observer))
     = mkOutcome (Some (Examples.jpeg 5000)) 90000 infinity (mkDims 1600 1200)
         (mkDims 267 200) true false
  /\ (infinity <? infinity) = false.
Proof. vm_compute. repeat split; reflexivity. Qed.

Import ImageProcessor.

(** ** More about the quality search of imageProcessor.js *)

Section NotNaN.
Local Open Scope Z_scope.

Lemma binary_round_aux_not_nan s m e :
  0 < m -> binary_round_aux prec emax s m e loc_Exact <> S754_nan.
Proof.
  intros Hm. unfold binary_round_aux.
  pose proof (shr_fexp_bounds m e loc_Exact ltac:(lia)) as H1. simpl in H1.
  destruct (shr_fexp prec emax m e loc_Exact) as [mrs' e']. simpl in H1.
  destruct H1 as (H1 & H2 & H3).
  pose proof (round_nearest_even_bounds (shr_m mrs') (loc_of_shr_record mrs') H1) as [H4 H5].
  pose proof (shr_fexp_bounds _ e' loc_Exact H4) as H6. simpl in H6.
  destruct (shr_fexp prec emax _ e' loc_Exact) as [mrs'' e'']. simpl in H6.
  destruct H6 as (H6 & H7 & H8).
  destruct (shr_m mrs''); try discriminate; try lia.
  destruct (_ <=? _); discriminate.
Qed.

Lemma binary_normalize_not_nan z :
  0 <= z -> binary_normalize prec emax z 0 false <> S754_nan.
Proof.
  intros Hz. destruct z as [|p|p]; simpl; try discriminate; try lia.
  unfold binary_round, shl_align.
  destruct (fexp prec emax (Zpos (digits2_pos p) + 0) - 0) as [|d|d] eqn:E;
    apply binary_round_aux_not_nan; lia.
Qed.

End NotNaN.

(** [blob.size] is a byte count: never NaN. *)
Lemma blob_size_not_nan b : Prim2SF (blob_size b) <> S754_nan.
Proof.
  unfold blob_size, JS.ofNat, JS.ofZ.
  replace (Z.of_nat (List.length (blob_bytes b)) <? 0)%Z with false
    by (symmetry; apply Z.ltb_ge; lia).
  rewrite of_uint63_spec. apply binary_normalize_not_nan.
  pose proof (Uint63.to_Z_bounded (Uint63.of_Z (Z.of_nat (List.length (blob_bytes b))))).
  lia.
Qed.

Lemma leb_left_not_nan (x y : float) : (x <=? y) = true -> Prim2SF x <> S754_nan.
Proof.
  rewrite FloatAxioms.leb_spec. unfold SFleb. intros H E. rewrite E in H. discriminate.
Qed.

Lemma leb_right_not_nan (x y : float) : (x <=? y) = true -> Prim2SF y <> S754_nan.
Proof.
  rewrite FloatAxioms.leb_spec. unfold SFleb. intros H E. rewrite E in H.
  destruct (Prim2SF x); discriminate.
Qed.

(** A byte count is below [Infinity]. *)
Lemma blob_size_ltb_infinity b : (blob_size b <? infinity) = true.
Proof.
  pose proof (blob_size_not_nan b) as Hn.
  pose proof (blob_size_not_infinity b) as Hi.
  rewrite FloatAxioms.ltb_spec. unfold SFltb.
  change (Prim2SF infinity) with (S754_infinity false).
  destruct (Prim2SF (blob_size b)) as [s|s| |s m e] eqn:E; simpl; try congruence.
  all: try (destruct s; reflexivity).
  destruct s; [reflexivity|]. exfalso. apply Hi.
  rewrite <- (SF2Prim_Prim2SF (blob_size b)), E. reflexivity.
Qed.

Ltac msimpl :=
  repeat progress (rewrite ?fst_bind, ?snd_bind, ?fst_toBlob, ?snd_toBlob, ?fst_ret,
                     ?snd_ret, ?encodesOf_app, ?encodesOf_notify, ?app_nil_r, ?app_nil_l;
                   cbv beta).

Lemma encodesOf_one c f q t : encodesOf (Encode c f q :: t) = (c, f, q) :: encodesOf t.
Proof. reflexivity. Qed.

Lemma fst_notify cb p : fst (notify cb p) = tt.
Proof. destruct cb; reflexivity. Qed.

Section SearchFacts.
Variable encoder : Canvas -> string -> JS.number -> Blob.
Variables (canvas : Canvas) (fmt : string) (kb : JS.number).

Lemma tryCompress_encodes cb r : forall q bb bs bq,
  (List.length (encodesOf (snd (tryCompress encoder canvas fmt kb cb r q bb bs bq))) <= r)%nat /\
  Forall (fun e => fst (fst e) = canvas /\ snd (fst e) = fmt)
         (encodesOf (snd (tryCompress encoder canvas fmt kb cb r q bb bs bq))).
Proof.
  induction r as [|r IH]; intros q bb bs bq.
  - simpl. destruct bb; simpl; auto.
  - cbn [tryCompress]. msimpl.
    set (blob := encoder canvas fmt q).
    rewrite (encodesOf_one canvas fmt q []).
    assert (Hnil : encodesOf [] = []) by reflexivity.
    destruct ((blob_size blob <=? targetSizeBytes kb)
              && (minTargetBytes kb <=? blob_size blob)).
    all: destruct ((blob_size blob <=? targetSizeBytes kb) && (blob_size blob <? bs)).
    all: destruct ((maxIterations - S r =? 0)%nat
                   && (blob_size blob <? minTargetBytes kb * 0.5)).
    all: destruct (targetSizeBytes kb <? blob_size blob).
    all: destruct (q <=? minQuality).
    all: destruct ((blob_size blob <? minTargetBytes kb) && (q <? 0.98)).
    all: msimpl; rewrite ?Hnil; cbn [app List.length];
      try (split; [lia | repeat constructor]).
    all: match goal with
         | |- context [tryCompress _ _ _ _ _ _ ?q' ?b' ?s' ?u'] =>
             destruct (IH q' b' s' u') as [IH1 IH2];
             split; [lia | constructor; [split; reflexivity | exact IH2]]
         end.
Qed.

Lemma tryCompress_first cb r q bb bs bq :
  r <> 0%nat ->
  (1 <= List.length (encodesOf (snd (tryCompress encoder canvas fmt kb cb r q bb bs bq))))%nat.
Proof.
  destruct r as [|r]; [congruence|]. intros _.
  cbn [tryCompress]. rewrite snd_bind, encodesOf_app, snd_bind, encodesOf_app, snd_toBlob.
  rewrite length_app. cbn [encodesOf flat_map app List.length]. lia.
Qed.

(** A search with iterations left starts by encoding at its quality. *)
Lemma tryCompress_head cb r q bb bs bq :
  r <> 0%nat ->
  exists rest,
    encodesOf (snd (tryCompress encoder canvas fmt kb cb r q bb bs bq))
    = (canvas, fmt, q) :: rest.
Proof.
  destruct r as [|r]; [congruence|]. intros _.
  cbn [tryCompress]. rewrite snd_bind, encodesOf_app, snd_bind, encodesOf_app, snd_toBlob.
  rewrite encodesOf_notify, (encodesOf_one canvas fmt q []).
  change (encodesOf []) with (@nil (Canvas * string * JS.number)).
  rewrite app_nil_l, cons_app, app_nil_l. eexists. reflexivity.
Qed.

(** The callback has no part in the search. *)
Lemma tryCompress_callback cb cb' r : forall q bb bs bq,
  fst (tryCompress encoder canvas fmt kb cb r q bb bs bq)
  = fst (tryCompress encoder canvas fmt kb cb' r q bb bs bq) /\
  encodesOf (snd (tryCompress encoder canvas fmt kb cb r q bb bs bq))
  = encodesOf (snd (tryCompress encoder canvas fmt kb cb' r q bb bs bq)).
Proof.
  induction r as [|r IH]; intros q bb bs bq.
  - split; reflexivity.
  - cbn [tryCompress]. msimpl.
    set (blob := encoder canvas fmt q).
    destruct ((blob_size blob <=? targetSizeBytes kb)
              && (minTargetBytes kb <=? blob_size blob)).
    all: destruct ((blob_size blob <=? targetSizeBytes kb) && (blob_size blob <? bs)).
    all: destruct ((maxIterations - S r =? 0)%nat
                   && (blob_size blob <? minTargetBytes kb * 0.5)).
    all: destruct (targetSizeBytes kb <? blob_size blob).
    all: destruct (q <=? minQuality).
    all: destruct ((blob_size blob <? minTargetBytes kb) && (q <? 0.98)).
    all: msimpl; try (split; reflexivity).
    all: match goal with
         | |- context [tryCompress _ _ _ _ _ _ ?q' ?b' ?s' ?u'] =>
             destruct (IH q' b' s' u') as [IH1 IH2];
             split; [exact IH1 | rewrite IH2; reflexivity]
         end.
Qed.

Lemma tryCompress_fits cb r : forall q bb bs bq,
  bestKnown (targetSizeBytes kb) r bb bs ->
  match r_blob (fst (tryCompress encoder canvas fmt kb cb r q bb bs bq)) with
  | Some b => blob_size b <=? targetSizeBytes kb
  | None => false
  end
  = is_some bb
    || someUnder encoder (targetSizeBytes kb)
         (encodesOf (snd (tryCompress encoder canvas fmt kb cb r q bb bs bq))).
Proof.
  induction r as [|r IH]; intros q bb bs bq (Hr & Hfirst & Hinf & Hbest).
  - simpl. destruct bb as [b|]; simpl; [|reflexivity].
    rewrite (Hbest b eq_refl). reflexivity.
  - cbn [tryCompress]. msimpl.
    set (blob := encoder canvas fmt q).
    rewrite (encodesOf_one canvas fmt q []).
    assert (Hnil : encodesOf [] = []) by reflexivity.
    assert (Hone : forall rest,
               someUnder encoder (targetSizeBytes kb) ((canvas, fmt, q) :: rest)
               = (blob_size blob <=? targetSizeBytes kb)
                 || someUnder encoder (targetSizeBytes kb) rest) by reflexivity.
    assert (Hnone : someUnder encoder (targetSizeBytes kb) [] = false) by reflexivity.
    (* what tracking does to the invariant *)
    assert (Htrack : forall bb',
      bb' = (if (blob_size blob <=? targetSizeBytes kb) && (blob_size blob <? bs)
             then Some blob else bb) ->
      (forall b, bb' = Some b -> (blob_size b <=? targetSizeBytes kb) = true) /\
      is_some bb' = is_some bb || (blob_size blob <=? targetSizeBytes kb)).
    { intros bb' ->.
      destruct (blob_size blob <=? targetSizeBytes kb) eqn:Hle; cbn [andb].
      - destruct (blob_size blob <? bs) eqn:Hlt.
        + split; [intros b [= <-]; exact Hle | cbn; rewrite orb_true_r; reflexivity].
        + split; [exact Hbest|].
          destruct bb as [b|]; [reflexivity|].
          rewrite (Hinf eq_refl), blob_size_ltb_infinity in Hlt. discriminate.
      - split; [exact Hbest | rewrite orb_false_r; reflexivity]. }
    destruct ((blob_size blob <=? targetSizeBytes kb)
              && (minTargetBytes kb <=? blob_size blob)) eqn:Hband.
    { msimpl. rewrite Hnil, Hone. cbn [r_blob].
      apply andb_prop in Hband. destruct Hband as [Hle _].
      rewrite Hle. cbn. rewrite orb_true_r. reflexivity. }
    destruct ((maxIterations - S r =? 0)%nat
              && (blob_size blob <? minTargetBytes kb * 0.5)) eqn:Hsmall.
    { apply andb_prop in Hsmall. destruct Hsmall as [H0 _].
      apply Nat.eqb_eq in H0.
      rewrite (Hfirst ltac:(lia)).
      destruct ((blob_size blob <=? targetSizeBytes kb) && (blob_size blob <? bs));
        msimpl; rewrite Hnil, Hone, Hnone; cbn [r_blob is_some orb];
        rewrite orb_false_r; reflexivity. }
    destruct (Htrack _ eq_refl) as [Hbest' Hsome'].
    assert (Hinf' : forall bs',
      (if (blob_size blob <=? targetSizeBytes kb) && (blob_size blob <? bs)
       then Some blob else bb) = None -> 
      (if (blob_size blob <=? targetSizeBytes kb) && (blob_size blob <? bs)
       then bs' else bs) = infinity).
    { intros bs'. destruct ((blob_size blob <=? targetSizeBytes kb) && (blob_size blob <? bs));
        [discriminate | exact Hinf]. }
    destruct ((blob_size blob <=? targetSizeBytes kb) && (blob_size blob <? bs)) eqn:Htr.
    all: destruct (targetSizeBytes kb <? blob_size blob) eqn:Hover.
    all: destruct (q <=? minQuality) eqn:Hq.
    all: destruct ((blob_size blob <? minTargetBytes kb) && (q <? 0.98)) eqn:Hunder.
    all: msimpl; cbn [app]; rewrite ?Hnil, ?Hone, ?Hnone; cbn [r_blob].
    all: try (apply andb_prop in Htr; destruct Htr as [Hle Hlt];
              try (rewrite (leb_not_gtb _ _ Hle) in Hover; discriminate)).
    all: lazymatch goal with
         | |- context [tryCompress _ _ _ _ _ _ ?q' ?b' ?s' ?u'] =>
             rewrite (IH q' b' s' u');
             [ revert Hsome'; try revert Hle; cbn [is_some];
               destruct (is_some bb); destruct (blob_size blob <=? targetSizeBytes kb);
               cbn [orb]; rewrite ?app_nil_l; congruence
             | split; [lia|]; split; [lia|]; split; [first [exact (Hinf' bs) | apply Hinf'] | exact Hbest'] ]
         | |- _ => idtac
         end.
    all: rewrite ?orb_false_r.
    all: try (rewrite Hle, orb_true_r; reflexivity).
    all: destruct bb as [b|]; cbv beta iota; cbn [is_some orb]; try reflexivity.
    all: try exact (Hbest b eq_refl).
    all: apply not_gtb_leb;
      [apply blob_size_not_nan | exact (leb_right_not_nan _ _ (Hbest b eq_refl)) | exact Hover].
Qed.

End SearchFacts.

(** X1.  A run of [compressImage] encodes at least once and at most 25 times
    (the iteration cap), and every encode is of the canvas and in the format
    it was called with. *)
Theorem compressImage_encodes_bounded encoder canvas fmt kb cb :
  (1 <= List.length (encodesOf (snd (compressImage encoder canvas fmt kb cb))) <= 25)%nat /\
  Forall (fun e => fst (fst e) = canvas /\ snd (fst e) = fmt)
         (encodesOf (snd (compressImage encoder canvas fmt kb cb))).
Proof.
  rewrite compressImage_eq.
  destruct (tryCompress_encodes encoder canvas fmt kb cb maxIterations startQuality None
              infinity startQuality) as [H1 H2].
  split; [split|exact H2].
  - apply tryCompress_first. discriminate.
  - apply (Nat.le_trans _ maxIterations); [exact H1 | apply le_n].
Qed.

(** X2.  The progress callback has no part in the search: the result of
    [compressImage] and the encodes it makes are the same for every
    callback, present or absent. *)
Theorem compressImage_ignores_callback encoder canvas fmt kb cb cb' :
  fst (compressImage encoder canvas fmt kb cb) = fst (compressImage encoder canvas fmt kb cb') /\
  encodesOf (snd (compressImage encoder canvas fmt kb cb))
  = encodesOf (snd (compressImage encoder canvas fmt kb cb')).
Proof. rewrite !compressImage_eq. apply tryCompress_callback. Qed.

(** X3.  The blob [compressImage] resolves with is at most the target exactly
    when some encode of the run was at most the target: the search never
    hands back an encode over the target when it has seen one that fits. *)
Theorem compressImage_fits_when_possible encoder canvas fmt kb cb :
  exists b,
    r_blob (fst (compressImage encoder canvas fmt kb cb)) = Some b /\
    (blob_size b <=? targetSizeBytes kb)
    = someUnder encoder (targetSizeBytes kb)
        (encodesOf (snd (compressImage encoder canvas fmt kb cb))).
Proof.
  pose proof (compressImage_blob encoder canvas fmt kb cb) as Hb.
  rewrite compressImage_eq in *.
  assert (Hinv : bestKnown (targetSizeBytes kb) maxIterations None infinity).
  { unfold bestKnown.
    split; [apply le_n|]. split; [reflexivity|]. split; [reflexivity|discriminate]. }
  pose proof (tryCompress_fits encoder canvas fmt kb cb maxIterations startQuality None
                infinity startQuality Hinv) as Hfit.
  rewrite orb_false_l in Hfit.
  destruct (r_blob (fst (tryCompress encoder canvas fmt kb cb maxIterations startQuality None
                           infinity startQuality))) as [b|]; [|congruence].
  exists b. split; [reflexivity|exact Hfit].
Qed.

(** ** pdfProcessor.js *)

Import PDFProcessor.

Lemma savesOf_app t1 t2 : savesOf (t1 ++ t2) = savesOf t1 ++ savesOf t2.
Proof. apply flat_map_app. Qed.

Lemma rendersOf_app t1 t2 : rendersOf (t1 ++ t2) = rendersOf t1 ++ rendersOf t2.
Proof. apply flat_map_app. Qed.

Lemma flat_map_nil {A B} (f : A -> list B) l :
  (forall a, f a = []) -> flat_map f l = [].
Proof. intros H. induction l; simpl; rewrite ?H; auto. Qed.

Lemma flat_map_notify {C} (g : Event -> list C) cb p :
  (forall x, g (Progress x) = []) -> flat_map g (snd (notify cb p)) = [].
Proof.
  intros Hg. destruct cb as [f|]; [|reflexivity]. simpl.
  induction (f p) as [|x l IH]; [reflexivity|]. simpl. rewrite Hg, IH. reflexivity.
Qed.

Lemma flat_map_single {A} (l : list A) : flat_map (fun a => [a]) l = l.
Proof. induction l as [|a l IH]; [reflexivity|]. simpl. rewrite IH. reflexivity. Qed.

Lemma flat_map_unit {A B} (f : A -> B) (l : list A) : flat_map (fun a => [f a]) l = map f l.
Proof. induction l as [|a l IH]; [reflexivity|]. simpl. rewrite IH. reflexivity. Qed.

Lemma flat_map_const {A C} (c : list C) (l : list A) :
  flat_map (fun _ => c) l = List.concat (repeat c (List.length l)).
Proof. induction l as [|a l IH]; [reflexivity|]. simpl. rewrite IH. reflexivity. Qed.

Lemma flat_map_flat_map {A B C} (g : B -> list C) (f : A -> list B) l :
  flat_map g (flat_map f l) = flat_map (fun a => flat_map g (f a)) l.
Proof.
  induction l as [|a l IH]; [reflexivity|].
  cbn [flat_map]. rewrite flat_map_app, IH. reflexivity.
Qed.

Lemma flat_map_in_ext {A B} (f g : A -> list B) l :
  (forall a, In a l -> f a = g a) -> flat_map f l = flat_map g l.
Proof.
  induction l as [|a l IH]; intros H; [reflexivity|].
  cbn [flat_map]. rewrite (H a), IH; [reflexivity| |left; reflexivity].
  intros x Hx. apply H. right. exact Hx.
Qed.

Lemma length_flat_map_one {A B} (f : A -> list B) l :
  (forall a, List.length (f a) = 1%nat) -> List.length (flat_map f l) = List.length l.
Proof.
  intros Hf. induction l as [|a l IH]; [reflexivity|].
  cbn [flat_map]. rewrite length_app, Hf, IH. reflexivity.
Qed.

Lemma rendersOf_notify cb p : rendersOf (snd (notify cb p)) = [].
Proof. apply flat_map_notify. reflexivity. Qed.

Lemma savesOf_notify cb p : savesOf (snd (notify cb p)) = [].
Proof. apply flat_map_notify. reflexivity. Qed.

Lemma encodesOf_load f t : encodesOf (LoadPDF f :: t) = encodesOf t.
Proof. reflexivity. Qed.

Lemma encodesOf_render f n sc t : encodesOf (RenderPage f n sc :: t) = encodesOf t.
Proof. reflexivity. Qed.

Ltac psimpl :=
  repeat progress (rewrite ?fst_bind, ?snd_bind, ?fst_emit, ?snd_emit, ?fst_ret, ?snd_ret;
                   cbv beta iota).

(** *** Exceptions *)

Lemma fst_tryBind_some {A B} (m : M (option A)) (k : A -> M (option B)) a :
  fst m = Some a -> fst (tryBind m k) = fst (k a).
Proof. intros H. unfold tryBind. rewrite fst_bind, H. reflexivity. Qed.

Lemma snd_tryBind_some {A B} (m : M (option A)) (k : A -> M (option B)) a :
  fst m = Some a -> snd (tryBind m k) = snd m ++ snd (k a).
Proof. intros H. unfold tryBind. rewrite snd_bind, H. reflexivity. Qed.

Lemma fst_tryBind_none {A B} (m : M (option A)) (k : A -> M (option B)) :
  fst m = None -> fst (tryBind m k) = None.
Proof. intros H. unfold tryBind. rewrite fst_bind, H. reflexivity. Qed.

Lemma snd_tryBind_none {A B} (m : M (option A)) (k : A -> M (option B)) :
  fst m = None -> snd (tryBind m k) = snd m.
Proof. intros H. unfold tryBind. rewrite snd_bind, H, snd_ret. apply app_nil_r. Qed.

(** The trace of a function starts with the trace of what it awaits first. *)
Lemma snd_tryBind_prefix {A B} (m : M (option A)) (k : A -> M (option B)) :
  exists t, snd (tryBind m k) = snd m ++ t.
Proof.
  destruct (fst m) as [a|] eqn:E.
  - exists (snd (k a)). apply snd_tryBind_some, E.
  - exists []. rewrite app_nil_r. apply snd_tryBind_none, E.
Qed.

(** A loop all of whose iterations return collects their values, in order. *)
Lemma forEach_ok {A B} (f : A -> M (option B)) l :
  (forall a, In a l -> fst (f a) <> None) ->
  exists bs,
    fst (forEach f l) = Some bs /\
    Forall2 (fun a b => fst (f a) = Some b) l bs /\
    snd (forEach f l) = flat_map (fun a => snd (f a)) l.
Proof.
  induction l as [|a l IH]; intros H.
  - exists []. repeat split. constructor.
  - destruct (fst (f a)) as [b|] eqn:Ea; [|exfalso; apply (H a); [left; reflexivity|exact Ea]].
    destruct IH as (bs & E1 & E2 & E3); [intros x Hx; apply H; right; exact Hx|].
    exists (b :: bs). cbn [forEach flat_map].
    rewrite (fst_tryBind_some _ _ _ Ea), (snd_tryBind_some _ _ _ Ea).
    rewrite (fst_tryBind_some _ _ _ E1), (snd_tryBind_some _ _ _ E1).
    rewrite fst_ret, snd_ret, app_nil_r, E3.
    repeat split. constructor; assumption.
Qed.

(** A loop one of whose iterations throws stops there. *)
Lemma forEach_fail {A B} (f : A -> M (option B)) pre a post :
  (forall x, In x pre -> fst (f x) <> None) -> fst (f a) = None ->
  fst (forEach f (pre ++ a :: post)) = None /\
  snd (forEach f (pre ++ a :: post)) = flat_map (fun x => snd (f x)) pre ++ snd (f a).
Proof.
  induction pre as [|x pre IH]; intros H Ha.
  - cbn [app forEach flat_map].
    rewrite (fst_tryBind_none _ _ Ha), (snd_tryBind_none _ _ Ha). split; reflexivity.
  - destruct (fst (f x)) as [b|] eqn:Ex; [|exfalso; apply (H x); [left; reflexivity|exact Ex]].
    destruct IH as [E1 E2]; [intros y Hy; apply H; right; exact Hy|exact Ha|].
    cbn [app forEach flat_map].
    rewrite (fst_tryBind_some _ _ _ Ex), (snd_tryBind_some _ _ _ Ex).
    rewrite (fst_tryBind_none _ _ E1), (snd_tryBind_none _ _ E1), E2.
    split; [reflexivity|apply app_assoc].
Qed.

(** *** Rendering *)

Section Rendering.
Variable numPages : Blob -> nat.
Variable renderer : Blob -> nat -> JS.number -> Image.

Lemma renderPageToCanvas_valid file pn sc :
  validPage numPages file pn = true ->
  renderPageToCanvas numPages renderer file pn sc
  = (Some (renderer file pn sc, JS.Math_floor (img_width (renderer file pn sc)),
           JS.Math_floor (img_height (renderer file pn sc))),
     [LoadPDF file; RenderPage file pn sc]).
Proof. intros H. unfold renderPageToCanvas. rewrite H. reflexivity. Qed.

Lemma renderPageToCanvas_invalid file pn sc :
  validPage numPages file pn = false ->
  renderPageToCanvas numPages renderer file pn sc = (None, [LoadPDF file]).
Proof. intros H. unfold renderPageToCanvas. rewrite H. reflexivity. Qed.

Lemma validPage_seq file n i :
  (n <= numPages file)%nat -> In i (seq 1 n) -> validPage numPages file i = true.
Proof.
  intros Hn Hi. apply in_seq in Hi. unfold validPage.
  apply andb_true_intro. split; apply Nat.leb_le; lia.
Qed.

End Rendering.

(** *** [compressFullPDF] *)

Section FullPDF.
Variable numPages : Blob -> nat.
Variable renderer : Blob -> nat -> JS.number -> Image.
Variable encoder : Canvas -> string -> JS.number -> Blob.
Variable jpgDimensions : Blob -> Dimensions JS.number.
Variable serializer : list PdfPage -> Blob.
Variables (file : Blob) (kb : JS.number) (pageCount : nat).
Hypothesis pagesExist : (pageCount <= numPages file)%nat.

(** One rebuild of pages that exist: every page is rendered at scale 2 and
    encoded as a JPEG, in order, and the document is serialised once. *)
Lemma rebuild_ok q :
  exists pages,
    fst (rebuild numPages renderer encoder jpgDimensions serializer file pageCount q)
    = Some (serializer pages) /\
    snd (rebuild numPages renderer encoder jpgDimensions serializer file pageCount q)
    = flat_map (fun i => [LoadPDF file; RenderPage file i 2.0;
                          Encode (PageCanvas (renderer file i 2.0)) "image/jpeg" q])
               (seq 1 pageCount)
      ++ [SavePDF pages].
Proof.
  unfold rebuild.
  match goal with
  | |- context [forEach ?f (seq 1 pageCount)] =>
      assert (Hbody : forall i, In i (seq 1 pageCount) ->
                fst (f i) <> None /\
                snd (f i) = [LoadPDF file; RenderPage file i 2.0;
                             Encode (PageCanvas (renderer file i 2.0)) "image/jpeg" q]);
      [|destruct (forEach_ok f (seq 1 pageCount) (fun i Hi => proj1 (Hbody i Hi)))
          as (pages & E1 & _ & E3)]
  end.
  - intros i Hi. cbv beta. unfold renderPageToImage.
    rewrite (renderPageToCanvas_valid _ _ _ _ _ (validPage_seq _ _ _ _ pagesExist Hi)).
    unfold tryBind, toBlob. cbn [bind emit ret fst snd app].
    destruct (_ <? _); cbn [fst snd]; split; try discriminate; reflexivity.
  - exists pages.
    rewrite (fst_tryBind_some _ _ _ E1), (snd_tryBind_some _ _ _ E1).
    unfold save. psimpl. rewrite E3, app_nil_r. split; [reflexivity|].
    f_equal. apply flat_map_in_ext. intros i Hi. apply Hbody, Hi.
Qed.

Lemma rebuild_renders q :
  rendersOf (snd (rebuild numPages renderer encoder jpgDimensions serializer file
                    pageCount q)) = seq 1 pageCount.
Proof.
  destruct (rebuild_ok q) as (pages & _ & E). rewrite E, rendersOf_app.
  unfold rendersOf at 1. rewrite flat_map_flat_map.
  cbn [flat_map app rendersOf]. rewrite flat_map_single. apply app_nil_r.
Qed.

Lemma rebuild_encodes q :
  encodesOf (snd (rebuild numPages renderer encoder jpgDimensions serializer file
                    pageCount q))
  = map (fun i => (PageCanvas (renderer file i 2.0), "image/jpeg", q)) (seq 1 pageCount).
Proof.
  destruct (rebuild_ok q) as (pages & _ & E). rewrite E, encodesOf_app.
  unfold encodesOf at 1. rewrite flat_map_flat_map.
  cbn [flat_map app encodesOf]. rewrite flat_map_unit. apply app_nil_r.
Qed.

Lemma rebuild_one_save q :
  List.length (savesOf (snd (rebuild numPages renderer encoder jpgDimensions serializer
                               file pageCount q))) = 1%nat.
Proof.
  destruct (rebuild_ok q) as (pages & _ & E). rewrite E, savesOf_app.
  unfold savesOf at 1. rewrite flat_map_flat_map.
  cbn [flat_map app savesOf]. rewrite flat_map_nil by reflexivity. reflexivity.
Qed.

Lemma returnBest_silent {C} (g : Event -> list C) cb bb bs :
  (forall x, g (Progress x) = []) ->
  flat_map g (snd (returnBest file kb cb pageCount bb bs)) = [].
Proof.
  intros Hg. unfold returnBest.
  rewrite snd_bind, snd_ret, app_nil_r. apply flat_map_notify, Hg.
Qed.

(** Apart from progress, the trace of the attempts is the trace of the
    rebuilds at the qualities tried. *)
Lemma attempts_rebuilds cb r : forall q bb bs,
  exists qs, (List.length qs <= r)%nat /\ (r <> 0%nat -> qs <> []) /\
    forall (C : Type) (g : Event -> list C), (forall x, g (Progress x) = []) ->
      flat_map g (snd (attempts numPages renderer encoder jpgDimensions serializer file kb
                         cb pageCount r q bb bs))
      = flat_map (fun q' => flat_map g (snd (rebuild numPages renderer encoder
                                               jpgDimensions serializer file pageCount q')))
                 qs.
Proof.
  induction r as [|r IH]; intros q bb bs.
  - exists []. split; [apply le_n|]. split; [congruence|].
    intros C g Hg. cbn [attempts]. apply returnBest_silent, Hg.
  - destruct (rebuild_ok q) as (pages & Ef & _).
    assert (Hlast : forall (t : list Event),
              (forall (C : Type) (g : Event -> list C),
                 (forall x, g (Progress x) = []) -> flat_map g t = []) ->
              exists qs, (List.length qs <= S r)%nat /\ (S r <> 0%nat -> qs <> []) /\
                forall (C : Type) (g : Event -> list C), (forall x, g (Progress x) = []) ->
                  flat_map g (snd (notify cb
                                     (10 + JS.Math_round
                                             (JS.ofNat (maxAttempts - S r)
                                              / JS.ofNat maxAttempts * 80)))
                              ++ snd (rebuild numPages renderer encoder jpgDimensions
                                        serializer file pageCount q) ++ t)
                  = flat_map (fun q' => flat_map g (snd (rebuild numPages renderer encoder
                                jpgDimensions serializer file pageCount q'))) qs).
    { intros t Ht. exists [q]. split; [cbn; lia|]. split; [discriminate|].
      intros C g Hg. rewrite !flat_map_app, flat_map_notify, (Ht C g Hg) by exact Hg.
      cbn [flat_map app]. reflexivity. }
    assert (Hmore : forall q' bb' bs',
              exists qs, (List.length qs <= S r)%nat /\ (S r <> 0%nat -> qs <> []) /\
                forall (C : Type) (g : Event -> list C), (forall x, g (Progress x) = []) ->
                  flat_map g (snd (notify cb
                                     (10 + JS.Math_round
                                             (JS.ofNat (maxAttempts - S r)
                                              / JS.ofNat maxAttempts * 80)))
                              ++ snd (rebuild numPages renderer encoder jpgDimensions
                                        serializer file pageCount q)
                              ++ snd (attempts numPages renderer encoder jpgDimensions
                                        serializer file kb cb pageCount r q' bb' bs'))
                  = flat_map (fun q' => flat_map g (snd (rebuild numPages renderer encoder
                                jpgDimensions serializer file pageCount q'))) qs).
    { intros q' bb' bs'. destruct (IH q' bb' bs') as (qs & Hlen & _ & Hqs).
      exists (q :: qs). split; [cbn; lia|]. split; [discriminate|].
      intros C g Hg. rewrite !flat_map_app, flat_map_notify, (Hqs C g Hg) by exact Hg.
      cbn [flat_map app]. reflexivity. }
    cbn [attempts]. rewrite snd_bind, (snd_tryBind_some _ _ _ Ef). cbv beta.
    set (b := serializer pages).
    destruct ((blob_size b <=? targetSizeBytes kb) && (bs <? blob_size b)).
    2: destruct bb as [b0|]; cbn [orb].
    2: destruct (blob_size b <? bs).
    all: destruct ((blob_size b <=? targetSizeBytes kb) &&
                   (targetSizeBytes kb * 0.9 <=? blob_size b)).
    all: try destruct (targetSizeBytes kb <? blob_size b).
    all: try destruct (q <=? 0.2).
    all: try destruct (q <? 0.85).
    all: try apply Hmore.
    all: apply Hlast; intros C g Hg; try (apply returnBest_silent; exact Hg).
    all: rewrite snd_bind, snd_ret, app_nil_r; apply flat_map_notify, Hg.
Qed.

(** The best attempt the loop holds is a blob together with its size. *)
Lemma attempts_coherent cb r : forall q bb bs,
  (bb = None /\ r <> 0%nat) \/ (exists b0, bb = Some b0 /\ bs = blob_size b0) ->
  exists o b1,
    fst (attempts numPages renderer encoder jpgDimensions serializer file kb cb
           pageCount r q bb bs) = Some o /\
    blob o = Some b1 /\
    newSize o = blob_size b1 /\
    warning o = (newSize o >? targetSizeBytes kb).
Proof.
  induction r as [|r IH]; intros q bb bs Hinv.
  - destruct Hinv as [[_ H]|(b0 & -> & ->)]; [congruence|].
    eexists _, b0. cbn [attempts]. unfold returnBest. rewrite fst_bind, fst_ret.
    repeat split.
  - destruct (rebuild_ok q) as (pages & Ef & _).
    cbn [attempts]. rewrite fst_bind. cbv beta.
    rewrite (fst_tryBind_some _ _ _ Ef). cbv beta.
    set (b := serializer pages).
    assert (Hret : forall b1,
              exists o b2,
                fst (returnBest file kb cb pageCount (Some b1) (blob_size b1)) = Some o /\
                blob o = Some b2 /\ newSize o = blob_size b2 /\
                warning o = (newSize o >? targetSizeBytes kb)).
    { intros b1. eexists _, b1. unfold returnBest. rewrite fst_bind, fst_ret. repeat split. }
    destruct Hinv as [[-> _]|(b0 & -> & ->)]; cbn [orb].
    all: repeat match goal with |- context [if ?c then _ else _] => destruct c eqn:? end.
    all: first
      [ apply Hret
      | apply IH; right; eexists; split; reflexivity
      | eexists _, b; rewrite fst_bind, fst_ret;
        split; [reflexivity|]; cbn [blob newSize warning outcome];
        split; [reflexivity|]; split; [reflexivity|];
        symmetry; apply leb_not_gtb;
        match goal with
        | H : (_ <=? _) && (_ <=? _) = true |- _ => apply andb_prop in H; apply H
        end ].
Qed.

End FullPDF.

Lemma compressFullPDF_trace numPages renderer encoder jpgDimensions serializer file kb cb :
  exists qs, (1 <= List.length qs <= maxAttempts)%nat /\
    forall (C : Type) (g : Event -> list C),
      (forall x, g (Progress x) = []) -> (forall f, g (LoadPDF f) = []) ->
      flat_map g (snd (compressFullPDF numPages renderer encoder jpgDimensions serializer
                         file kb cb))
      = flat_map (fun q' => flat_map g (snd (rebuild numPages renderer encoder jpgDimensions
                                               serializer file (numPages file) q'))) qs.
Proof.
  unfold compressFullPDF, getPageCount.
  rewrite !snd_bind, !fst_bind, fst_ret, snd_emit, snd_ret.
  destruct (attempts_rebuilds numPages renderer encoder jpgDimensions serializer file kb
              (numPages file) (le_n _) cb maxAttempts 0.75 None infinity)
    as (qs & Hlen & Hne & Hqs).
  exists qs. split.
  - split; [|exact Hlen]. destruct qs; [|cbn; lia].
    exfalso. apply Hne; [discriminate|reflexivity].
  - intros C g Hg Hload. rewrite !flat_map_app, (Hqs C g Hg), flat_map_notify by exact Hg.
    cbn [flat_map app]. rewrite Hload. reflexivity.
Qed.

(** C5 (the code departs from it).  The claim: [compressFullPDF] tracks the
    best attempt at most the target and returns it when no attempt lands in
    the band.  With the encoder [growing] and a 10 KB target the ten rebuilds
    have 8192, 8692, 12192, 8192, ... bytes; none is in the band; 8692 is at
    most the target and closer to it than 8192, yet the result is the 8192-byte
    rebuild: the second arm of the tracking test replaces a recorded best by
    any smaller attempt. *)
Theorem full_pdf_drops_better_attempt :
  map (fun pages => blob_size (PdfExamples.container pages))
      (savesOf (snd (PDFProcessor.compressFullPDF PdfExamples.onePage PdfExamples.a4
                       PdfExamples.growing PdfExamples.jpgSize PdfExamples.container
                       (Examples.pdf 50000) 10 (Some observer))))
  = [8192; 8692; 12192; 8192; 8692; 12192; 8192; 8692; 12192; 8192]
  /\ (8692 <=? 10 * 1024) = true
  /\ fst (PDFProcessor.compressFullPDF PdfExamples.onePage PdfExamples.a4
            PdfExamples.growing PdfExamples.jpgSize PdfExamples.container
            (Examples.pdf 50000) 10 (Some observer))
     = Some (mkPdfOutcome (mkOutcome (Some (Examples.pdf 8192)) 50000 8192 (mkDims 595 842)
                             (mkDims 595 842) false false) 1 1).
Proof. vm_compute. repeat split; reflexivity. Qed.




(** *** The pages of [extractAndProcessPages] *)

Section Pages.
Variable numPages : Blob -> nat.
Variable renderer : Blob -> nat -> JS.number -> Image.
Variable encoder : Canvas -> string -> JS.number -> Blob.
Variable serializer : list PdfPage -> Blob.

Lemma pageSearch_renders canvas fmt T following : forall q bb bs bq,
  rendersOf (snd (pageSearch encoder canvas fmt T following q bb bs bq)) = [].
Proof.
  induction following as [|f IH]; intros q bb bs bq; cbn [pageSearch];
    rewrite snd_bind, rendersOf_app, fst_toBlob;
    set (b := encoder canvas fmt q);
    destruct ((blob_size b <=? T) && (minTargetBytes T <=? blob_size b)); try reflexivity;
    destruct ((blob_size b <=? T) && (blob_size b <? bs));
    destruct (Nat.eqb _ 0 && (blob_size b <? minTargetBytes T * 0.5)); try reflexivity;
    destruct (T <? blob_size b); try (destruct (q <=? minQuality)); try reflexivity;
    try (destruct ((blob_size b <? minTargetBytes T) && (q <? 0.98))); try reflexivity;
    apply IH.
Qed.


Lemma pageSearch_head canvas fmt T following q bb bs bq :
  exists rest,
    encodesOf (snd (pageSearch encoder canvas fmt T following q bb bs bq))
    = (canvas, fmt, q) :: rest.
Proof.
  destruct following; cbn [pageSearch];
    rewrite snd_bind, encodesOf_app, snd_toBlob;
    rewrite (encodesOf_one canvas fmt q []);
    change (encodesOf []) with (@nil (Canvas * string * JS.number));
    cbn [app]; eexists; reflexivity.
Qed.

Lemma pageSearch_canvas canvas fmt T following : forall q bb bs bq,
  Forall (fun e => fst (fst e) = canvas /\ snd (fst e) = fmt)
         (encodesOf (snd (pageSearch encoder canvas fmt T following q bb bs bq))).
Proof.
  induction following as [|f IH]; intros q bb bs bq; cbn [pageSearch];
    rewrite snd_bind, encodesOf_app, fst_toBlob, snd_toBlob;
    rewrite (encodesOf_one canvas fmt q []);
    change (encodesOf []) with (@nil (Canvas * string * JS.number));
    cbn [app]; (constructor; [split; reflexivity|]);
    set (b := encoder canvas fmt q);
    destruct ((blob_size b <=? T) && (minTargetBytes T <=? blob_size b));
    try (rewrite snd_ret; constructor);
    destruct ((blob_size b <=? T) && (blob_size b <? bs));
    destruct (Nat.eqb _ 0 && (blob_size b <? minTargetBytes T * 0.5));
    try (rewrite snd_ret; constructor);
    destruct (T <? blob_size b); try (destruct (q <=? minQuality));
    try (rewrite snd_ret; constructor);
    try (destruct ((blob_size b <? minTargetBytes T) && (q <? 0.98)));
    try (rewrite snd_ret; constructor);
    apply IH.
Qed.

Lemma pageSearch_band canvas fmt T following : forall q0 bb bs bq pre q post,
  encodesOf (snd (pageSearch encoder canvas fmt T following q0 bb bs bq))
    = pre ++ (canvas, fmt, q) :: post ->
  inBand T (encoder canvas fmt q) = true ->
  post = [] /\
  fst (pageSearch encoder canvas fmt T following q0 bb bs bq)
    = (encoder canvas fmt q, Some (encoder canvas fmt q)).
Proof.
  induction following as [|f IH]; intros q0 bb bs bq pre q post; cbn [pageSearch];
    rewrite fst_bind, snd_bind, fst_toBlob, snd_toBlob, encodesOf_app;
    cbn [encodesOf flat_map app];
    set (b := encoder canvas fmt q0);
    (destruct ((blob_size b <=? T) && (minTargetBytes T <=? blob_size b)) eqn:Hband;
     [ rewrite fst_ret, snd_ret; cbn [encodesOf flat_map]; intros E Hq;
       destruct pre as [|x pre]; cbn [app] in E;
       [ injection E; intros; subst; auto | destruct pre; discriminate ] | ]);
    destruct ((blob_size b <=? T) && (blob_size b <? bs));
    destruct (Nat.eqb _ 0 && (blob_size b <? minTargetBytes T * 0.5));
    try destruct (T <? blob_size b);
    try destruct (q0 <=? minQuality);
    try destruct ((blob_size b <? minTargetBytes T) && (q0 <? 0.98));
    rewrite ?fst_ret, ?snd_ret; cbn [encodesOf flat_map];
    intros E Hq;
    (destruct pre as [|x pre]; cbn [app] in E;
     [ injection E; intros; subst q0; unfold inBand in Hq; unfold minTargetBytes in Hband;
       fold b in Hq; congruence | ]);
    try (destruct pre; discriminate);
    injection E as _ E; eapply IH; eauto.
Qed.

(** The blob a page keeps (the best one if any, else the last encode) is at
    most the target exactly when a best blob was held or some encode of the
    search was at most the target. *)
Lemma pageSearch_fits canvas fmt T following : forall q bb bs bq,
  bestKnown T (S following) bb bs ->
  (blob_size (match snd (fst (pageSearch encoder canvas fmt T following q bb bs bq)) with
              | Some b => b
              | None => fst (fst (pageSearch encoder canvas fmt T following q bb bs bq))
              end) <=? T)
  = is_some bb
    || someUnder encoder T
         (encodesOf (snd (pageSearch encoder canvas fmt T following q bb bs bq))).
Proof.
  induction following as [|f IH]; intros q bb bs bq (Hr & Hfirst & Hinf & Hbest).
  all: cbn [pageSearch]; rewrite !fst_bind, !snd_bind, fst_toBlob, snd_toBlob, encodesOf_app.
  all: set (blob := encoder canvas fmt q).
  all: rewrite (encodesOf_one canvas fmt q []).
  all: assert (Hnil : encodesOf [] = []) by reflexivity.
  all: assert (Hone : forall rest,
               someUnder encoder T ((canvas, fmt, q) :: rest)
               = (blob_size blob <=? T) || someUnder encoder T rest) by reflexivity.
  all: assert (Hnone : someUnder encoder T [] = false) by reflexivity.
  all: assert (Htrack :
      (forall b, (if (blob_size blob <=? T) && (blob_size blob <? bs)
                  then Some blob else bb) = Some b -> (blob_size b <=? T) = true) /\
      is_some (if (blob_size blob <=? T) && (blob_size blob <? bs) then Some blob else bb)
      = is_some bb || (blob_size blob <=? T))
    by (destruct (blob_size blob <=? T) eqn:Hle; cbn [andb];
        [ destruct (blob_size blob <? bs) eqn:Hlt;
          [ split; [intros b [= <-]; exact Hle | cbn; rewrite orb_true_r; reflexivity]
          | split; [exact Hbest|];
            destruct bb as [b|]; [reflexivity|];
            rewrite (Hinf eq_refl), blob_size_ltb_infinity in Hlt; discriminate ]
        | split; [exact Hbest | rewrite orb_false_r; reflexivity] ]).
  all: destruct Htrack as [Hbest' Hsome'].
  all: assert (Hinf' : forall bs',
      (if (blob_size blob <=? T) && (blob_size blob <? bs) then Some blob else bb) = None ->
      (if (blob_size blob <=? T) && (blob_size blob <? bs) then bs' else bs) = infinity)
    by (intros bs'; destruct ((blob_size blob <=? T) && (blob_size blob <? bs));
        [discriminate | exact Hinf]).
  all: destruct ((blob_size blob <=? T) && (minTargetBytes T <=? blob_size blob)) eqn:Hband.
  all: try (rewrite fst_ret, snd_ret, Hnil; cbn [fst snd app]; rewrite Hone;
            apply andb_prop in Hband; destruct Hband as [Hle _];
            rewrite Hle; cbn [orb]; rewrite orb_true_r; reflexivity).
  all: match goal with
       | |- context [(?n =? 0)%nat && ?c] => destruct ((n =? 0)%nat && c) eqn:Hsmall
       end.
  all: try (apply andb_prop in Hsmall; destruct Hsmall as [H0 _];
            apply Nat.eqb_eq in H0;
            assert (Hnone' : bb = None)
              by (apply Hfirst; unfold maxIterations, ImageProcessor.maxIterations in *; lia);
            subst bb;
            destruct ((blob_size blob <=? T) && (blob_size blob <? bs));
            rewrite fst_ret, snd_ret, Hnil; cbn [fst snd app];
            rewrite Hone, Hnone; cbn [is_some orb];
            rewrite orb_false_r; reflexivity).
  all: destruct ((blob_size blob <=? T) && (blob_size blob <? bs)) eqn:Htr.
  all: destruct (T <? blob_size blob) eqn:Hover.
  all: destruct (q <=? minQuality) eqn:Hq.
  all: destruct ((blob_size blob <? minTargetBytes T) && (q <? 0.98)) eqn:Hunder.
  all: rewrite ?fst_ret, ?snd_ret, ?Hnil; cbn [app fst snd]; rewrite ?Hone, ?Hnone.
  all: try (apply andb_prop in Htr; destruct Htr as [Hle Hlt];
            try (rewrite (leb_not_gtb _ _ Hle) in Hover; discriminate)).
  all: lazymatch goal with
       | |- context [pageSearch _ _ _ _ _ ?q' ?b' ?s' ?u'] =>
           rewrite (IH q' b' s' u');
           [ revert Hsome'; try revert Hle; cbn [is_some];
             destruct (is_some bb); destruct (blob_size blob <=? T);
             cbn [orb]; rewrite ?app_nil_l; congruence
           | split; [unfold ImageProcessor.maxIterations in *; lia|];
             split; [unfold ImageProcessor.maxIterations in *; lia|];
             split; [first [exact (Hinf' bs) | apply Hinf'] | exact Hbest'] ]
       | |- _ => idtac
       end.
  all: rewrite ?orb_false_r.
  all: try (rewrite Hle, orb_true_r; reflexivity).
  all: destruct bb as [b|]; cbv beta iota; cbn [is_some orb]; try reflexivity.
  all: exact (Hbest b eq_refl).
Qed.


(** A page that is not in the document: [getPage] rejects, nothing is
    rendered or encoded. *)
Lemma processPage_invalid file preset n renderScale pn :
  validPage numPages file pn = false ->
  processPage numPages renderer encoder serializer file preset n renderScale pn
  = (None, [LoadPDF file]).
Proof.
  intros H. unfold processPage.
  rewrite (renderPageToCanvas_invalid _ _ _ _ _ H). reflexivity.
Qed.

(** A page of the document: it is rendered once, the test encode is made at
    quality 0.75, the search runs on the resized canvas, and the outcome
    holds the blob the search keeps. *)
Lemma processPage_valid file preset n renderScale pn :
  validPage numPages file pn = true ->
  exists ow oh c0 o,
    rendersOf (snd (processPage numPages renderer encoder serializer file preset n
                      renderScale pn)) = [pn] /\
    encodesOf (snd (processPage numPages renderer encoder serializer file preset n
                      renderScale pn))
    = (c0, format preset, 0.75)
      :: encodesOf (snd (pageSearch encoder
                           (DrawnCanvas ow oh None (renderer file pn renderScale) 0 0 ow oh)
                           (format preset) (maxSizeKB preset * 1024)
                           (maxIterations - 1) 0.92 None infinity 0.92)) /\
    fst (processPage numPages renderer encoder serializer file preset n renderScale pn)
    = Some o /\
    pageNum o = pn /\ pageCount o = n /\
    (String.eqb (format preset) "application/pdf" = false ->
     blob o = Some (keptBlob (fst (pageSearch encoder
                           (DrawnCanvas ow oh None (renderer file pn renderScale) 0 0 ow oh)
                           (format preset) (maxSizeKB preset * 1024)
                           (maxIterations - 1) 0.92 None infinity 0.92))) /\
     newSize o = blob_size (keptBlob (fst (pageSearch encoder
                           (DrawnCanvas ow oh None (renderer file pn renderScale) 0 0 ow oh)
                           (format preset) (maxSizeKB preset * 1024)
                           (maxIterations - 1) 0.92 None infinity 0.92))) /\
     warning o = (blob_size (keptBlob (fst (pageSearch encoder
                           (DrawnCanvas ow oh None (renderer file pn renderScale) 0 0 ow oh)
                           (format preset) (maxSizeKB preset * 1024)
                           (maxIterations - 1) 0.92 None infinity 0.92)))
                  >? maxSizeKB preset * 1024)).
Proof.
  intros Hv. unfold processPage.
  rewrite (renderPageToCanvas_valid _ _ _ _ _ Hv).
  unfold tryBind, toBlob, save. psimpl. cbn [fst snd]. cbv beta iota. psimpl.
  destruct (planPageDimensions _ _ _ _ _ _) as [ow oh]. psimpl.
  exists ow, oh.
  destruct (fst (pageSearch _ _ _ _ _ _ _ _ _)) as [rb bb] eqn:E. psimpl.
  destruct (String.eqb (format preset) "application/pdf") eqn:Ef.
  all: psimpl; cbn [fst snd].
  all: eexists; eexists.
  all: rewrite !rendersOf_app, !encodesOf_app, pageSearch_renders.
  all: rewrite !encodesOf_load, !encodesOf_render.
  all: cbn [rendersOf encodesOf flat_map app outcome pageNum pageCount blob newSize warning].
  all: rewrite ?app_nil_r.
  all: repeat split; try reflexivity; try discriminate.
Qed.

(** An encode of a page's search that lands in the band is the last encode
    of the search, and the blob the page keeps. *)
Lemma search_band canvas fmt T k q0 bb bs bq pre c f q post :
  encodesOf (snd (pageSearch encoder canvas fmt T k q0 bb bs bq)) = pre ++ (c, f, q) :: post ->
  inBand T (encoder c f q) = true ->
  post = [] /\
  keptBlob (fst (pageSearch encoder canvas fmt T k q0 bb bs bq)) = encoder c f q /\
  (blob_size (encoder c f q) >? T) = false.
Proof.
  intros E Hq.
  pose proof (pageSearch_canvas canvas fmt T k q0 bb bs bq) as Hc.
  rewrite E in Hc. apply Forall_app in Hc. destruct Hc as [_ Hc].
  inversion Hc as [|x l [Hc1 Hc2] _]. cbn [fst snd] in Hc1, Hc2. subst c f.
  destruct (pageSearch_band canvas fmt T k q0 bb bs bq pre q post E Hq) as [Hp Hf].
  split; [exact Hp|]. rewrite Hf. split; [reflexivity|].
  apply leb_not_gtb. unfold inBand in Hq. apply andb_prop in Hq. apply Hq.
Qed.

Lemma processPage_band_inv file preset n renderScale pn pre c f q post :
  validPage numPages file pn = false ->
  tl (encodesOf (snd (processPage numPages renderer encoder serializer file preset n
                        renderScale pn)))
    = pre ++ (c, f, q) :: post -> False.
Proof.
  intros Hv E.
  rewrite (processPage_invalid file preset n renderScale pn Hv) in E.
  cbn [snd encodesOf flat_map tl app] in E. destruct pre; discriminate.
Qed.

Lemma tl_cons {A} (a : A) l : tl (a :: l) = l.
Proof. reflexivity. Qed.

(** An encode of a page's search that lands in the band is the page's last
    encode, and the page's outcome holds it. *)
Lemma processPage_band file preset n renderScale pn pre c f q post :
  tl (encodesOf (snd (processPage numPages renderer encoder serializer file preset n
                        renderScale pn)))
    = pre ++ (c, f, q) :: post ->
  inBand (maxSizeKB preset * 1024) (encoder c f q) = true ->
  post = [] /\
  (String.eqb (format preset) "application/pdf" = false ->
   exists o,
     fst (processPage numPages renderer encoder serializer file preset n renderScale pn)
       = Some o /\
     blob o = Some (encoder c f q) /\
     newSize o = blob_size (encoder c f q) /\
     warning o = false).
Proof.
  intros E Hq.
  destruct (validPage numPages file pn) eqn:Hv.
  - destruct (processPage_valid file preset n renderScale pn Hv)
      as (ow & oh & c0 & o & _ & He & Ho & _ & _ & Hb).
    rewrite He, tl_cons in E.
    destruct (search_band _ _ _ _ _ _ _ _ _ _ _ _ _ E Hq) as (Hp & Hk & Hw).
    split; [exact Hp|]. intros Hfmt. exists o.
    destruct (Hb Hfmt) as (B1 & B2 & B3).
    rewrite Hk in B1, B2, B3.
    split; [exact Ho|]. split; [exact B1|]. split; [exact B2|].
    rewrite B3. exact Hw.
  - exfalso. exact (processPage_band_inv _ _ _ _ _ _ _ _ _ _ Hv E).
Qed.

(** The search of a page of the document starts at quality 0.92. *)
Lemma processPage_search_head file preset n renderScale pn :
  validPage numPages file pn = true ->
  exists c rest,
    tl (encodesOf (snd (processPage numPages renderer encoder serializer file preset n
                          renderScale pn)))
    = (c, format preset, 0.92) :: rest.
Proof.
  intros Hv.
  destruct (processPage_valid file preset n renderScale pn Hv)
    as (ow & oh & c0 & o & _ & He & _).
  rewrite He, tl_cons.
  destruct (pageSearch_head (DrawnCanvas ow oh None (renderer file pn renderScale) 0 0 ow oh)
              (format preset) (maxSizeKB preset * 1024) (maxIterations - 1) 0.92 None
              infinity 0.92) as [rest Hrest].
  eexists; eexists. exact Hrest.
Qed.

(** The blob of a page of the document is at most the target exactly when
    some encode of its search was. *)
Lemma processPage_fits file preset n renderScale pn :
  validPage numPages file pn = true ->
  String.eqb (format preset) "application/pdf" = false ->
  exists o b,
    fst (processPage numPages renderer encoder serializer file preset n renderScale pn)
      = Some o /\
    blob o = Some b /\
    (blob_size b <=? maxSizeKB preset * 1024)
    = someUnder encoder (maxSizeKB preset * 1024)
        (tl (encodesOf (snd (processPage numPages renderer encoder serializer file preset n
                               renderScale pn)))).
Proof.
  intros Hv Hfmt.
  destruct (processPage_valid file preset n renderScale pn Hv)
    as (ow & oh & c0 & o & _ & He & Ho & _ & _ & Hb).
  destruct (Hb Hfmt) as (B1 & _).
  exists o. eexists. split; [exact Ho|]. split; [exact B1|].
  rewrite He, tl_cons. unfold keptBlob.
  match goal with
  | |- context [pageSearch encoder ?c ?f ?T ?k ?q None infinity ?q'] =>
      assert (Hinv : bestKnown T (S k) None infinity)
        by (unfold bestKnown, maxIterations, ImageProcessor.maxIterations;
            split; [lia|]; split; [reflexivity|]; split; [reflexivity|discriminate]);
      pose proof (pageSearch_fits c f T k q None infinity q' Hinv) as Hfit
  end.
  rewrite orb_false_l in Hfit. exact Hfit.
Qed.

(** *** The loop over the requested pages *)

Lemma map_snd_combine_seq {A} (l : list A) k :
  map snd (combine (seq k (List.length l)) l) = l.
Proof.
  revert k. induction l as [|a l IH]; intros k; [reflexivity|].
  cbn [List.length seq combine map snd]. rewrite IH. reflexivity.
Qed.

Lemma in_combine_valid {A} (l : list A) (P : A -> bool) k i a :
  forallb P l = true -> In (i, a) (combine (seq k (List.length l)) l) -> P a = true.
Proof.
  intros Hall Hin. apply in_combine_r in Hin.
  rewrite forallb_forall in Hall. apply Hall, Hin.
Qed.

(** The trace of [extractAndProcessPages] up to the end of its loop, and its
    result, in terms of the loop. *)
Lemma extractAndProcessPages_eq file pageSpec preset cb :
  extractAndProcessPages numPages renderer encoder serializer file pageSpec preset cb
  = (notify cb 10 ;;
     emit (LoadPDF file) ;;
     await results <- forEach (fun '(idx, pageNum) =>
         notify cb (20 + JS.Math_round
                      (JS.ofNat idx
                       * (70 / JS.ofNat (List.length (pagesToProcess numPages file pageSpec))))) ;;
         processPage numPages renderer encoder serializer file preset (numPages file)
                     (JS.Math_max 2.0 (widthPx preset / 400)) pageNum)
       (combine (seq 0 (List.length (pagesToProcess numPages file pageSpec)))
                (pagesToProcess numPages file pageSpec)) ;;
     notify cb 100 ;;
     ret (Some results)).
Proof. reflexivity. Qed.

End Pages.


(** *** [extractAndProcessPages] *)

Lemma progressOf_notify_observer p : progressOf (snd (notify (Some observer) p)) = [p].
Proof. reflexivity. Qed.

Lemma forEach_head {A B} (f : A -> M (option B)) a l :
  exists t, snd (forEach f (a :: l)) = snd (f a) ++ t.
Proof. cbn [forEach]. apply snd_tryBind_prefix. Qed.

Lemma forEach_one_fail {A B} (f : A -> M (option B)) a :
  fst (f a) = None -> fst (forEach f [a]) = None /\ snd (forEach f [a]) = snd (f a).
Proof.
  intros H. destruct (forEach_fail f [] a [] (fun x (Hx : In x []) => match Hx with end) H)
    as [E1 E2].
  split; [exact E1|exact E2].
Qed.

Lemma Forall2_map_eq {A B C} (R : A -> B -> Prop) (g : B -> C) (h : A -> C) l bs :
  Forall2 R l bs -> (forall a b, R a b -> g b = h a) -> map g bs = map h l.
Proof.
  intros HF HR. induction HF as [|a b l bs Hab _ IH]; [reflexivity|].
  cbn [map]. rewrite (HR a b Hab), IH. reflexivity.
Qed.

Lemma Forall2_Forall_r {A B} (R : A -> B -> Prop) (P : B -> Prop) l bs :
  Forall2 R l bs -> (forall a b, R a b -> P b) -> Forall P bs.
Proof.
  intros HF HR. induction HF as [|a b l bs Hab _ IH]; constructor; [|exact IH].
  exact (HR a b Hab).
Qed.

Lemma first_page_progress :
  20 + JS.Math_round (JS.ofNat 0 * (70 / JS.ofNat (List.length [0%nat]))) = 20.
Proof. vm_compute. reflexivity. Qed.

Section Requests.
Variable numPages : Blob -> nat.
Variable renderer : Blob -> nat -> JS.number -> Image.
Variable encoder : Canvas -> string -> JS.number -> Blob.
Variable serializer : list PdfPage -> Blob.

(** The outcome of a page carries the page's number and the page count it
    was given. *)
Lemma processPage_fields file preset n renderScale pn o :
  fst (processPage numPages renderer encoder serializer file preset n renderScale pn)
    = Some o ->
  pageNum o = pn /\ pageCount o = n.
Proof.
  intros Ho. destruct (validPage numPages file pn) eqn:Hv.
  - destruct (processPage_valid numPages renderer encoder serializer file preset n
                renderScale pn Hv) as (ow & oh & c0 & o' & _ & _ & Ho' & Hn & Hc & _).
    rewrite Ho' in Ho. injection Ho as <-. split; assumption.
  - rewrite (processPage_invalid numPages renderer encoder serializer file preset n
               renderScale pn Hv) in Ho.
    discriminate.
Qed.

(** When every requested page is in the document, the outcomes come in the
    order requested and each requested page is rendered once. *)
Lemma extract_success file pageSpec preset cb :
  forallb (validPage numPages file) (pagesToProcess numPages file pageSpec) = true ->
  exists results,
    fst (extractAndProcessPages numPages renderer encoder serializer file pageSpec preset cb)
      = Some results /\
    map pageNum results = pagesToProcess numPages file pageSpec /\
    Forall (fun o : PdfOutcome => pageCount o = numPages file) results /\
    rendersOf (snd (extractAndProcessPages numPages renderer encoder serializer file
                      pageSpec preset cb))
    = pagesToProcess numPages file pageSpec.
Proof.
  intros Hall. rewrite extractAndProcessPages_eq.
  set (P := pagesToProcess numPages file pageSpec) in *.
  match goal with
  | |- context [forEach ?f (combine (seq 0 (List.length P)) P)] =>
      assert (Hbody : forall a, In a (combine (seq 0 (List.length P)) P) ->
                fst (f a) <> None /\ rendersOf (snd (f a)) = [snd a]);
      [|destruct (forEach_ok f (combine (seq 0 (List.length P)) P)
                    (fun a Ha => proj1 (Hbody a Ha))) as (bs & E1 & E2 & E3)]
  end.
  - intros [i pn] Hin. cbv beta iota.
    pose proof (in_combine_valid P (validPage numPages file) 0 i pn Hall Hin) as Hv.
    destruct (processPage_valid numPages renderer encoder serializer file preset
                (numPages file) (JS.Math_max 2.0 (widthPx preset / 400)) pn Hv)
      as (ow & oh & c0 & o & Hr & _ & Ho & _).
    rewrite fst_bind, snd_bind, rendersOf_app, rendersOf_notify, Ho, Hr.
    split; [discriminate|reflexivity].
  - exists bs.
    rewrite !fst_bind, !snd_bind.
    rewrite (fst_tryBind_some _ _ _ E1), (snd_tryBind_some _ _ _ E1).
    rewrite fst_bind, fst_ret, snd_bind, snd_ret, snd_emit, E3.
    split; [reflexivity|]. split; [|split].
    + rewrite (Forall2_map_eq _ pageNum snd _ _ E2).
      * apply map_snd_combine_seq.
      * intros [i pn] b Hb. cbv beta iota in Hb. rewrite fst_bind in Hb.
        apply (processPage_fields _ _ _ _ _ _ Hb).
    + apply (Forall2_Forall_r _ _ _ _ E2).
      intros [i pn] b Hb. cbv beta iota in Hb. rewrite fst_bind in Hb.
      apply (processPage_fields _ _ _ _ _ _ Hb).
    + rewrite !rendersOf_app, !rendersOf_notify.
      unfold rendersOf at 2. rewrite flat_map_flat_map.
      rewrite (flat_map_in_ext _ (fun a => [snd a])).
      * rewrite flat_map_unit, map_snd_combine_seq.
        cbn [rendersOf flat_map app]. apply app_nil_r.
      * intros a Ha. apply (Hbody a Ha).
Qed.

(** A single page that is not in the document: [getPage] rejects, so the
    function throws after the first two progress values; nothing is rendered
    or encoded and 100 is not reported. *)
Lemma extract_missing file n preset :
  validPage numPages file n = false ->
  fst (extractAndProcessPages numPages renderer encoder serializer file (OnePage n) preset
         (Some observer)) = None /\
  rendersOf (snd (extractAndProcessPages numPages renderer encoder serializer file
                    (OnePage n) preset (Some observer))) = [] /\
  encodesOf (snd (extractAndProcessPages numPages renderer encoder serializer file
                    (OnePage n) preset (Some observer))) = [] /\
  progressOf (snd (extractAndProcessPages numPages renderer encoder serializer file
                     (OnePage n) preset (Some observer))) = [10; 20].
Proof.
  intros Hv. rewrite extractAndProcessPages_eq.
  change (pagesToProcess numPages file (OnePage n)) with [n].
  change (combine (seq 0 (List.length [n])) [n]) with [(0%nat, n)].
  match goal with
  | |- context [forEach ?f [(0%nat, n)]] =>
      assert (Hnone : fst (f (0%nat, n)) = None);
      [|destruct (forEach_one_fail f (0%nat, n) Hnone) as [E1 E2];
        assert (Hsnd : snd (f (0%nat, n)) = [Progress 20; LoadPDF file])]
  end.
  - cbv beta iota. rewrite fst_bind.
    rewrite (processPage_invalid numPages renderer encoder serializer file preset _ _ n Hv).
    reflexivity.
  - cbv beta iota. rewrite snd_bind.
    rewrite (processPage_invalid numPages renderer encoder serializer file preset _ _ n Hv).
    change (List.length [n]) with (List.length [0%nat]).
    rewrite first_page_progress. reflexivity.
  - rewrite !fst_bind, !snd_bind.
    rewrite (fst_tryBind_none _ _ E1), (snd_tryBind_none _ _ E1), E2, Hsnd, snd_emit.
    repeat split.
Qed.

(** Whatever the preset, the first requested page, when it is in the
    document, is rendered and its test encode is made. *)
Lemma extract_first_page file pageSpec preset cb p rest :
  pagesToProcess numPages file pageSpec = p :: rest ->
  validPage numPages file p = true ->
  exists c rest1 rest2,
    rendersOf (snd (extractAndProcessPages numPages renderer encoder serializer file
                      pageSpec preset cb)) = p :: rest1 /\
    encodesOf (snd (extractAndProcessPages numPages renderer encoder serializer file
                      pageSpec preset cb)) = (c, format preset, 0.75) :: rest2.
Proof.
  intros HP Hv. rewrite extractAndProcessPages_eq. rewrite HP.
  change (combine (seq 0 (List.length (p :: rest))) (p :: rest))
    with ((0%nat, p) :: combine (seq 1 (List.length rest)) rest).
  rewrite !snd_bind, snd_emit.
  match goal with
  | |- context [snd (tryBind ?m ?k)] =>
      destruct (snd_tryBind_prefix m k) as [t1 Et1]; rewrite Et1
  end.
  match goal with
  | |- context [snd (forEach ?f (?a :: ?l))] =>
      destruct (forEach_head f a l) as [t2 Et2]; rewrite Et2
  end.
  cbv beta iota. rewrite snd_bind.
  destruct (processPage_valid numPages renderer encoder serializer file preset
              (numPages file) (JS.Math_max 2.0 (widthPx preset / 400)) p Hv)
    as (ow & oh & c0 & o & Hr & He & _).
  rewrite !rendersOf_app, !encodesOf_app, !rendersOf_notify, !encodesOf_notify, Hr, He.
  exists c0. eexists. eexists. split; reflexivity.
Qed.

End Requests.


(** C2.  In a run of the quality search, an encode whose size lies in the
    closed band [0.85 * target, target] is the last encode of the run and is
    what the run returns.  For [compressImage]: the result is that encode with
    its size, its quality and [warning = false].  For a page of
    [extractAndProcessPages] (its encodes after the test encode are those of
    the inline loop): the loop encodes no more, and for an image format the
    page's outcome holds that encode as its blob, its size as [newSize] and
    [warning = false].  Both searches do encode: [compressImage] starts by
    encoding its canvas at quality 0.92, and so does the loop of every page
    that is in the document. *)
Theorem first_in_band_is_final :
  (forall encoder canvas fmt kb cb pre q post,
     encodesOf (snd (ImageProcessor.compressImage encoder canvas fmt kb cb))
       = pre ++ (canvas, fmt, q) :: post ->
     inBand (ImageProcessor.targetSizeBytes kb) (encoder canvas fmt q) = true ->
     post = [] /\
     fst (ImageProcessor.compressImage encoder canvas fmt kb cb)
       = mkSearchResult (Some (encoder canvas fmt q)) (blob_size (encoder canvas fmt q))
                        q false)
  /\
  (forall numPages renderer encoder serializer file preset n renderScale pn pre c f q post,
     tl (encodesOf (snd (PDFProcessor.processPage numPages renderer encoder serializer file
                           preset n renderScale pn)))
       = pre ++ (c, f, q) :: post ->
     inBand (maxSizeKB preset * 1024) (encoder c f q) = true ->
     post = [] /\
     (String.eqb (format preset) "application/pdf" = false ->
      exists o,
        fst (PDFProcessor.processPage numPages renderer encoder serializer file preset n
               renderScale pn) = Some o /\
        blob o = Some (encoder c f q) /\
        newSize o = blob_size (encoder c f q) /\
        warning o = false))
  /\
  (forall encoder canvas fmt kb cb,
     exists rest,
       encodesOf (snd (ImageProcessor.compressImage encoder canvas fmt kb cb))
       = (canvas, fmt, 0.92) :: rest)
  /\
  (forall numPages renderer encoder serializer file preset n renderScale pn,
     PDFProcessor.validPage numPages file pn = true ->
     exists c rest,
       tl (encodesOf (snd (PDFProcessor.processPage numPages renderer encoder serializer
                             file preset n renderScale pn)))
       = (c, format preset, 0.92) :: rest).
Proof.
  split; [|split; [|split]].
  - intros encoder canvas fmt kb cb pre q post. rewrite compressImage_eq.
    apply tryCompress_band.
  - intros. eapply processPage_band; eassumption.
  - intros encoder canvas fmt kb cb. rewrite compressImage_eq.
    apply tryCompress_head. discriminate.
  - intros. apply processPage_search_head. assumption.
Qed.

(** C2 at an encoder that gives 2000 bytes at quality 0.92 and 950 bytes at
    the next quality, under a 1 KB target: for [compressImage], and for page
    1 of a three-page document. *)
Lemma first_in_band_is_final_witness :
  (([] : list (Canvas * string * JS.number)) = [] /\
   fst (ImageProcessor.compressImage BandExamples.step Examples.canvas0 "image/jpeg" 1
          (Some observer))
   = mkSearchResult (Some (BandExamples.step Examples.canvas0 "image/jpeg" (0.92 - 0.08)))
       (blob_size (BandExamples.step Examples.canvas0 "image/jpeg" (0.92 - 0.08)))
       (0.92 - 0.08) false)
  /\
  (([] : list (Canvas * string * JS.number)) = [] /\
   exists o,
     fst (PDFProcessor.processPage PdfExamples.threePages PdfExamples.a4 BandExamples.step
            PdfExamples.container (Examples.pdf 50000) (mkPreset 1 "image/jpeg" 800 1067)
            3 2 1) = Some o /\
     blob o = Some (BandExamples.step
                      (DrawnCanvas 245 346 None (PdfExamples.a4 (Examples.pdf 50000) 1 2)
                                   0 0 245 346)
                      "image/jpeg" (0.92 - 0.08)) /\
     newSize o = blob_size (BandExamples.step
                      (DrawnCanvas 245 346 None (PdfExamples.a4 (Examples.pdf 50000) 1 2)
                                   0 0 245 346)
                      "image/jpeg" (0.92 - 0.08)) /\
     warning o = false)
  /\
  (exists c rest,
     tl (encodesOf (snd (PDFProcessor.processPage PdfExamples.threePages PdfExamples.a4
                           BandExamples.step PdfExamples.container (Examples.pdf 50000)
                           (mkPreset 1 "image/jpeg" 800 1067) 3 2 1)))
     = (c, format (mkPreset 1 "image/jpeg" 800 1067), 0.92) :: rest).
Proof.
  split; [|split].
  - apply (proj1 first_in_band_is_final BandExamples.step Examples.canvas0 "image/jpeg" 1
             (Some observer) [(Examples.canvas0, "image/jpeg", 0.92)] (0.92 - 0.08) []).
    + vm_compute. reflexivity.
    + vm_compute. reflexivity.
  - destruct (proj1 (proj2 first_in_band_is_final) PdfExamples.threePages PdfExamples.a4
                BandExamples.step PdfExamples.container (Examples.pdf 50000)
                (mkPreset 1 "image/jpeg" 800 1067) 3%nat 2 1%nat
                [(DrawnCanvas 245 346 None (PdfExamples.a4 (Examples.pdf 50000) 1 2)
                              0 0 245 346, "image/jpeg", 0.92)]
                (DrawnCanvas 245 346 None (PdfExamples.a4 (Examples.pdf 50000) 1 2)
                             0 0 245 346)
                "image/jpeg" (0.92 - 0.08) []) as [Hpost Hout].
    + vm_compute. reflexivity.
    + vm_compute. reflexivity.
    + split; [exact Hpost|]. apply Hout. reflexivity.
  - apply (proj2 (proj2 (proj2 first_in_band_is_final)) PdfExamples.threePages
             PdfExamples.a4 BandExamples.step PdfExamples.container (Examples.pdf 50000)
             (mkPreset 1 "image/jpeg" 800 1067) 3%nat 2 1%nat).
    vm_compute. reflexivity.
Defined.





(** X7.  For an image format and a page that is in the document, the blob
    the page of [extractAndProcessPages] ends with is at most the target
    exactly when some encode of the page's quality search (every encode of
    the page after the test encode) was at most the target. *)
Theorem page_fits_when_possible numPages renderer encoder serializer file preset n
    renderScale pn :
  validPage numPages file pn = true ->
  String.eqb (format preset) "application/pdf" = false ->
  exists o b,
    fst (processPage numPages renderer encoder serializer file preset n renderScale pn)
      = Some o /\
    blob o = Some b /\
    (blob_size b <=? maxSizeKB preset * 1024)
    = someUnder encoder (maxSizeKB preset * 1024)
        (tl (encodesOf (snd (processPage numPages renderer encoder serializer file preset n
                               renderScale pn)))).
Proof. apply processPage_fits. Qed.

Lemma page_fits_when_possible_witness :
  exists o b,
    fst (processPage PdfExamples.onePage PdfExamples.a4 PdfExamples.growing
           PdfExamples.container (Examples.pdf 50000) (mkPreset 10 "image/jpeg" 800 1067)
           1 2 1) = Some o /\
    blob o = Some b /\
    (blob_size b <=? maxSizeKB (mkPreset 10 "image/jpeg" 800 1067) * 1024)
    = someUnder PdfExamples.growing (maxSizeKB (mkPreset 10 "image/jpeg" 800 1067) * 1024)
        (tl (encodesOf (snd (processPage PdfExamples.onePage PdfExamples.a4
                               PdfExamples.growing PdfExamples.container
                               (Examples.pdf 50000) (mkPreset 10 "image/jpeg" 800 1067)
                               1 2 1)))).
Proof.
  apply (page_fits_when_possible PdfExamples.onePage PdfExamples.a4 PdfExamples.growing
           PdfExamples.container (Examples.pdf 50000) (mkPreset 10 "image/jpeg" 800 1067)
           1%nat 2 1%nat).
  - vm_compute. reflexivity.
  - reflexivity.
Defined.


(** ** [convertImageToPDF] *)

Section Conversion.
Variable decoder : Blob -> Image.
Variable encoder : Canvas -> string -> JS.number -> Blob.
Variables embedPng embedJpg : Blob -> option (Dimensions JS.number).
Variable serializer : list PdfPage -> Blob.
Variables (canvas : Canvas) (T : JS.number).

Lemma encodeLoop_qualities following : forall q k,
  (nth k (conversionQualities (S k) q) 0 <=? ImageToPDF.minQuality) = true ->
  exists n, (1 <= n <= S k)%nat /\ (n <= S following)%nat /\
    encodesOf (snd (ImageToPDF.encodeLoop encoder canvas T following q))
    = map (fun q' => (canvas, "image/jpeg", q')) (conversionQualities n q).
Proof.
  induction following as [|f IH]; intros q k Hk.
  all: cbn [ImageToPDF.encodeLoop]; rewrite snd_bind, fst_toBlob, snd_toBlob, encodesOf_app.
  all: rewrite (encodesOf_one canvas "image/jpeg" q []).
  all: change (encodesOf []) with (@nil (Canvas * string * JS.number)).
  all: destruct ((blob_size (encoder canvas "image/jpeg" q) <=? T)
                 || (q <=? ImageToPDF.minQuality)) eqn:Hstop.
  all: try (exists 1%nat; split; [lia|]; split; [lia|];
            rewrite snd_ret; reflexivity).
  destruct k as [|k].
  - cbn [conversionQualities nth] in Hk. rewrite Hk, orb_true_r in Hstop. discriminate.
  - destruct (IH (q - 0.1) k Hk) as (n & Hn & Hf & E).
    exists (S n). split; [lia|]. split; [lia|].
    rewrite E. reflexivity.
Qed.

Lemma encodeLoop_result following : forall q,
  exists q', fst (ImageToPDF.encodeLoop encoder canvas T following q)
             = encoder canvas "image/jpeg" q'.
Proof.
  induction following as [|f IH]; intros q.
  all: cbn [ImageToPDF.encodeLoop]; rewrite fst_bind, fst_toBlob.
  all: destruct ((blob_size (encoder canvas "image/jpeg" q) <=? T)
                 || (q <=? ImageToPDF.minQuality)).
  all: try (exists q; reflexivity).
  apply IH.
Qed.

Lemma encodeLoop_silent following : forall q,
  progressOf (snd (ImageToPDF.encodeLoop encoder canvas T following q)) = [] /\
  savesOf (snd (ImageToPDF.encodeLoop encoder canvas T following q)) = [].
Proof.
  induction following as [|f IH]; intros q.
  all: cbn [ImageToPDF.encodeLoop]; rewrite snd_bind, fst_toBlob, snd_toBlob.
  all: rewrite progressOf_app, savesOf_app.
  all: destruct ((blob_size (encoder canvas "image/jpeg" q) <=? T)
                 || (q <=? ImageToPDF.minQuality)).
  all: try (split; reflexivity).
  destruct (IH (q - 0.1)) as [H1 H2]. rewrite H1, H2. split; reflexivity.
Qed.

End Conversion.

Lemma conversion_floor :
  (nth 7 (conversionQualities 8 ImageToPDF.startQuality) 0 <=? ImageToPDF.minQuality) = true.
Proof. vm_compute. reflexivity. Qed.

Section ConversionRun.
Variable decoder : Blob -> Image.
Variable encoder : Canvas -> string -> JS.number -> Blob.
Variables embedPng embedJpg : Blob -> option (Dimensions JS.number).
Variable serializer : list PdfPage -> Blob.
Variables (file : Blob) (kb : JS.number).

Local Abbreviation convert :=
  (ImageToPDF.convertImageToPDF decoder encoder embedPng embedJpg serializer file kb).
Local Abbreviation loop :=
  (ImageToPDF.encodeLoop encoder (conversionCanvas decoder file) (kb * 1024)
     (ImageToPDF.maxIterations - 1) ImageToPDF.startQuality).

Lemma encodesOf_decode_one f : encodesOf [Decode f] = [].
Proof. reflexivity. Qed.

Lemma convert_encodes cb : encodesOf (snd (convert cb)) = encodesOf (snd loop).
Proof.
  unfold ImageToPDF.convertImageToPDF, ImageProcessor.loadImage, save. psimpl.
  fold (conversionCanvas decoder file).
  destruct (if String.eqb (blob_type file) "image/png" then embedPng (fst loop)
            else embedJpg (fst loop)) as [dims|].
  2: rewrite snd_ret, !encodesOf_app, !encodesOf_notify, encodesOf_decode_one;
     rewrite ?app_nil_l, ?app_nil_r; reflexivity.
  destruct (_ <? _); psimpl.
  all: rewrite !encodesOf_app, !encodesOf_notify, encodesOf_decode_one;
    rewrite ?app_nil_l, ?app_nil_r; reflexivity.
Qed.

Lemma convert_progress :
  progressOf (snd (convert (Some observer)))
  = if is_some (fst (convert (Some observer))) then [10; 30; 50; 70; 100]
    else [10; 30; 50; 70].
Proof.
  unfold ImageToPDF.convertImageToPDF, ImageProcessor.loadImage, save. psimpl.
  fold (conversionCanvas decoder file).
  destruct (encodeLoop_silent encoder (conversionCanvas decoder file) (kb * 1024)
              (ImageToPDF.maxIterations - 1) ImageToPDF.startQuality) as [Hp _].
  destruct (if String.eqb (blob_type file) "image/png" then embedPng (fst loop)
            else embedJpg (fst loop)) as [dims|].
  2: rewrite fst_ret, snd_ret, !progressOf_app, !progressOf_notify_observer, Hp;
     reflexivity.
  destruct (_ <? _); psimpl.
  all: rewrite !progressOf_app, !progressOf_notify_observer, Hp; reflexivity.
Qed.

Lemma convert_png :
  blob_type file = "image/png" ->
  (forall c q, embedPng (encoder c "image/jpeg" q) = None) ->
  fst (convert (Some observer)) = None /\
  savesOf (snd (convert (Some observer))) = [] /\
  progressOf (snd (convert (Some observer))) = [10; 30; 50; 70].
Proof.
  intros Htype Hembed.
  assert (Hnone : fst (convert (Some observer)) = None).
  { unfold ImageToPDF.convertImageToPDF, ImageProcessor.loadImage, save. psimpl.
    fold (conversionCanvas decoder file).
    destruct (encodeLoop_result encoder (conversionCanvas decoder file) (kb * 1024)
                (ImageToPDF.maxIterations - 1) ImageToPDF.startQuality) as [q' E].
    rewrite Htype, String.eqb_refl, E, Hembed. reflexivity. }
  split; [exact Hnone|]. split.
  - revert Hnone.
    unfold ImageToPDF.convertImageToPDF, ImageProcessor.loadImage, save. psimpl.
    fold (conversionCanvas decoder file).
    destruct (encodeLoop_silent encoder (conversionCanvas decoder file) (kb * 1024)
                (ImageToPDF.maxIterations - 1) ImageToPDF.startQuality) as [_ Hs].
    destruct (if String.eqb (blob_type file) "image/png" then embedPng (fst loop)
              else embedJpg (fst loop)) as [dims|].
    + destruct (_ <? _); psimpl; discriminate.
    + intros _. rewrite snd_ret, !savesOf_app, !savesOf_notify, Hs. reflexivity.
  - rewrite convert_progress, Hnone. reflexivity.
Qed.

End ConversionRun.





Import ImageProcessor.

(** ** [processImage] as a whole *)

Section WholeImage.
Variable decoder : Blob -> Image.
Variable encoder : Canvas -> string -> JS.number -> Blob.
Variables (file : Blob) (preset : Preset).

Lemma compressImage_fst_callback canvas fmt kb cb cb' :
  fst (compressImage encoder canvas fmt kb cb) = fst (compressImage encoder canvas fmt kb cb').
Proof. rewrite !compressImage_eq. apply tryCompress_callback. Qed.

Lemma compressImage_encodes_callback canvas fmt kb cb cb' :
  encodesOf (snd (compressImage encoder canvas fmt kb cb))
  = encodesOf (snd (compressImage encoder canvas fmt kb cb')).
Proof. rewrite !compressImage_eq. apply tryCompress_callback. Qed.

Lemma compressImage_encodes_length canvas fmt kb cb :
  (List.length (encodesOf (snd (compressImage encoder canvas fmt kb cb))) <= 25)%nat.
Proof.
  rewrite compressImage_eq.
  apply (Nat.le_trans _ maxIterations); [|apply le_n].
  apply tryCompress_encodes.
Qed.

Lemma processImage_callback cb cb' :
  fst (processImage decoder encoder file preset cb)
  = fst (processImage decoder encoder file preset cb') /\
  encodesOf (snd (processImage decoder encoder file preset cb))
  = encodesOf (snd (processImage decoder encoder file preset cb')).
Proof.
  unfold processImage, loadImage, toBlob. psimpl.
  destruct (blob_size file <=? maxSizeKB preset * 1024).
  - destruct (String.eqb (blob_type file) (format preset)); psimpl.
    + split; [reflexivity|].
      rewrite !encodesOf_app, !encodesOf_notify. reflexivity.
    + rewrite (compressImage_fst_callback _ _ _ cb cb').
      split; [reflexivity|].
      rewrite !encodesOf_app, !encodesOf_notify.
      rewrite (compressImage_encodes_callback _ _ _ cb cb'). reflexivity.
  - psimpl. rewrite !(compressImage_fst_callback _ _ _ cb cb').
    match goal with |- context [if ?c then bind _ _ else _] => destruct c end; psimpl.
    + match goal with |- context [if ?c then ret _ else _] => destruct c end; psimpl.
      all: split; [reflexivity|].
      all: rewrite !encodesOf_app, !encodesOf_notify;
        rewrite (compressImage_encodes_callback _ _ _ cb cb'); reflexivity.
    + split; [reflexivity|].
      rewrite !encodesOf_app, !encodesOf_notify.
      rewrite (compressImage_encodes_callback _ _ _ cb cb'). reflexivity.
Qed.

Lemma processImage_encodes_length cb :
  (List.length (encodesOf (snd (processImage decoder encoder file preset cb))) <= 51)%nat.
Proof.
  unfold processImage, loadImage, toBlob. psimpl.
  destruct (blob_size file <=? maxSizeKB preset * 1024).
  - destruct (String.eqb (blob_type file) (format preset)); psimpl.
    all: rewrite !encodesOf_app, !encodesOf_notify, !length_app.
    all: repeat match goal with
         | |- context [List.length (encodesOf (snd (compressImage encoder ?c ?f ?k ?o)))] =>
             pose proof (compressImage_encodes_length c f k o);
             set (List.length (encodesOf (snd (compressImage encoder c f k o)))) in *
         end.
    all: cbn [encodesOf flat_map app List.length]; lia.
  - psimpl.
    match goal with |- context [if ?c then bind _ _ else _] => destruct c end; psimpl.
    1: match goal with |- context [if ?c then ret _ else _] => destruct c end; psimpl.
    all: rewrite !encodesOf_app, !encodesOf_notify, !length_app.
    all: repeat match goal with
         | |- context [List.length (encodesOf (snd (compressImage encoder ?c ?f ?k ?o)))] =>
             pose proof (compressImage_encodes_length c f k o);
             set (List.length (encodesOf (snd (compressImage encoder c f k o)))) in *
         end.
    all: cbn [encodesOf flat_map app List.length]; lia.
Qed.

End WholeImage.

(** X11.  The outcome of [processImage] and the encodes it makes do not
    depend on the progress callback. *)
Theorem processImage_ignores_callback decoder encoder file preset cb cb' :
  fst (processImage decoder encoder file preset cb)
  = fst (processImage decoder encoder file preset cb') /\
  encodesOf (snd (processImage decoder encoder file preset cb))
  = encodesOf (snd (processImage decoder encoder file preset cb')).
Proof. apply processImage_callback. Qed.

(** X12.  One call of [processImage] encodes at most 51 times: the test
    encode and two quality searches of at most 25 encodes each. *)
Theorem processImage_encodes_bounded decoder encoder file preset cb :
  (List.length (encodesOf (snd (processImage decoder encoder file preset cb))) <= 51)%nat.
Proof. apply processImage_encodes_length. Qed.


(** ** Sizes the planners give *)

(** X16.  With a box that is not square the thumbnail of imageProcessor.js
    can stick out of it: a 400 x 300 picture in a 400 x 100 box stays
    400 x 300, because a landscape picture is only fitted to the width. *)
Theorem thumbnail_overflows_wide_box :
  Sizing.createThumbnail (num := float) 400 300 400 100 = mkDims 400 300 /\
  (100 <? height (Sizing.createThumbnail (num := float) 400 300 400 100)) = true.
Proof. vm_compute. split; reflexivity. Qed.

(** X17.  The per-page planner does not clamp again after raising a side to
    its minimum of 150: a 6000 x 300 page under an 800 x 1067 preset is
    planned at 3000 x 150, beyond the preset's width. *)
Theorem page_plan_exceeds_preset_width :
  planPageDimensions (num := float) 6000 300 204800 500000 800 1067 = mkDims 3000 150 /\
  (800 <? width (planPageDimensions (num := float) 6000 300 204800 500000 800 1067)) = true.
Proof. vm_compute. split; reflexivity. Qed.
